(** * drivers/cpufreq/cpu_wake_boost.c

    The wake boost driver raises the minimum frequency of every online CPU
    to the hardware maximum when the display is unblanked and releases it
    after [wake_boost_time] milliseconds, or at once when the display is
    blanked again.  This file embeds the driver's functions and proves the
    statements of its specification about them. *)

From Stdlib Require Import ZArith Ascii String Lia.
From stdpp Require Import base numbers list gmap strings.

Open Scope Z_scope.

(** ** What the driver takes from the kernel headers

    The macros and the two library functions the driver uses are declared
    in headers that are not part of the driver's file.  They are the
    fields of a class, and every definition below is stated for an
    arbitrary instance of it. *)

Class Kernel := {
  CPUFREQ_ADJUST : Z;          (* <linux/cpufreq.h>, policy notifier action *)
  NOTIFY_OK : Z;               (* <linux/notifier.h> *)
  FB_EARLY_EVENT_BLANK : Z;    (* <linux/fb.h> *)
  FB_BLANK_UNBLANK : Z;        (* <linux/fb.h> *)
  EINVAL : Z;                  (* <linux/errno.h> *)
  msecs_to_jiffies : Z -> Z;   (* <linux/jiffies.h> *)
  (* sscanf(buf, "%u\n", &val): the number of conversions made and the
     value written to val *)
  sscanf_u : string -> Z * Z
}.

(** ** Data *)

(** [enum boost_state] *)
Inductive boost_state := NO_BOOST | UNBOOST | BOOST.

#[global] Instance boost_state_eq_dec : EqDecision boost_state.
Proof. solve_decision. Defined.

(** The duration in milliseconds for the wake boost *)
Definition FB_BOOST_MS : Z := 2000.

(** The fields of [struct cpufreq_cpuinfo] and [struct cpufreq_policy]
    the driver reads and writes; all are [unsigned int]. *)
Record cpufreq_cpuinfo := { max_freq : Z; min_freq : Z }.

Record cpufreq_policy := { cpuinfo : cpufreq_cpuinfo; min : Z; max : Z }.

Definition set_min (policy : cpufreq_policy) (f : Z) : cpufreq_policy :=
  {| cpuinfo := cpuinfo policy; min := f; max := max policy |}.

Definition set_max (policy : cpufreq_policy) (f : Z) : cpufreq_policy :=
  {| cpuinfo := cpuinfo policy; min := min policy; max := f |}.

(** What a call of the policy notifier leaves behind: its return value,
    [w->state] and [*policy]. *)
Record notified := Notified {
  nret : Z;
  nstate : boost_state;
  npolicy : cpufreq_policy
}.

Section Notifier.
Context `{K : Kernel}.

(** [do_cpu_boost(nb, action, data)], with [w->state] and [*data] passed
    in and handed back. *)
Definition do_cpu_boost (action : Z) (w_state : boost_state)
    (policy : cpufreq_policy) : notified :=
  if negb (action =? CPUFREQ_ADJUST) then Notified NOTIFY_OK w_state policy
  else
    match w_state with
    | UNBOOST =>
        let policy := set_min policy (min_freq (cpuinfo policy)) in
        Notified NOTIFY_OK NO_BOOST policy
    | BOOST =>
        let policy := set_min policy (max_freq (cpuinfo policy)) in
        let policy :=
          if max policy <? min policy then set_max policy (min policy)
          else policy in
        Notified NOTIFY_OK BOOST policy
    | NO_BOOST => Notified NOTIFY_OK NO_BOOST policy
    end.

End Notifier.

(** ** The machine

    The driver's own memory is [wake_info->state] and [wake_boost_time].
    Its two work items live on [wake_info->wq]; [boost_work] is a
    [struct work_struct], [unboost_work] a [struct delayed_work], whose
    [work] member is what the workqueue runs. *)

Inductive delayed_work := unboost_work.

Inductive work_struct := boost_work | work (d : delayed_work).

#[global] Instance delayed_work_eq_dec : EqDecision delayed_work.
Proof. solve_decision. Defined.

#[global] Instance work_struct_eq_dec : EqDecision work_struct.
Proof. solve_decision. Defined.

Record machine := Machine {
  state : boost_state;                      (* wake_info->state *)
  wake_boost_time : Z;                      (* static unsigned int *)
  wq : list work_struct;                    (* work submitted to wake_info->wq
                                               and not yet run, oldest first *)
  timer : option Z;                         (* expiry of unboost_work's timer *)
  jiffies : Z;
  cpu_online_mask : list nat;
  cpufreq_cpu_data : gmap nat cpufreq_policy   (* the policy of each CPU *)
}.

Definition with_state (s : boost_state) (k : machine) : machine :=
  Machine s (wake_boost_time k) (wq k) (timer k) (jiffies k)
    (cpu_online_mask k) (cpufreq_cpu_data k).

Definition with_wake_boost_time (v : Z) (k : machine) : machine :=
  Machine (state k) v (wq k) (timer k) (jiffies k)
    (cpu_online_mask k) (cpufreq_cpu_data k).

Definition with_wq (l : list work_struct) (k : machine) : machine :=
  Machine (state k) (wake_boost_time k) l (timer k) (jiffies k)
    (cpu_online_mask k) (cpufreq_cpu_data k).

Definition with_timer (t : option Z) (k : machine) : machine :=
  Machine (state k) (wake_boost_time k) (wq k) t (jiffies k)
    (cpu_online_mask k) (cpufreq_cpu_data k).

Definition with_jiffies (j : Z) (k : machine) : machine :=
  Machine (state k) (wake_boost_time k) (wq k) (timer k) j
    (cpu_online_mask k) (cpufreq_cpu_data k).

Definition with_policy (cpu : nat) (s : boost_state) (p : cpufreq_policy)
    (k : machine) : machine :=
  Machine s (wake_boost_time k) (wq k) (timer k) (jiffies k)
    (cpu_online_mask k) (<[cpu := p]> (cpufreq_cpu_data k)).

(** ** Stores and calls, in program order

    A function of the driver is a state transformer that also hands back
    the list of the stores to the driver's variables and of the calls into
    the kernel it made, in the order it made them. *)

Inductive event :=
| Store_state (s : boost_state)
| Store_wake_boost_time (v : Z)
| Cpufreq_update_policy (cpu : nat)
| Queue_work (w : work_struct)
| Queue_delayed_work (d : delayed_work) (delay : Z)
| Cancel_delayed_work_sync (d : delayed_work).

Record out (A : Type) := Out { val : A; after : machine; trace : list event }.

Arguments Out {A} _ _ _.
Arguments val {A} _.
Arguments after {A} _.
Arguments trace {A} _.

Definition M (A : Type) : Type := machine -> out A.

#[global] Instance M_ret : MRet M := fun A (a : A) k => Out a k [].

#[global] Instance M_bind : MBind M := fun A B (f : A -> M B) (m : M A) k =>
  let r := m k in
  let r' := f (val r) (after r) in
  Out (val r') (after r') (trace r ++ trace r').

Definition store_state (s : boost_state) : M unit :=
  fun k => Out tt (with_state s k) [Store_state s].

Definition store_wake_boost_time (v : Z) : M unit :=
  fun k => Out tt (with_wake_boost_time v k) [Store_wake_boost_time v].

Definition load_wake_boost_time : M Z :=
  fun k => Out (wake_boost_time k) k [].

Fixpoint for_each {A} (l : list A) (body : A -> M unit) : M unit :=
  match l with
  | [] => mret tt
  | x :: l => body x;; for_each l body
  end.

Section Driver.
Context `{K : Kernel}.

(** ** The kernel services the driver calls *)

(** Modelled from the spec: the pending test of the task scheduler (the
    kernel's workqueue code is not part of the driver's file).  The spec
    gives the scheduler "a single-worker queue plus a cancellable timer
    handle": a work item is pending while it waits on the queue, a delayed
    one also while its timer runs. *)
Definition work_pending (w : work_struct) (k : machine) : bool :=
  match w with
  | boost_work => bool_decide (boost_work ∈ wq k)
  | work d =>
      match timer k with
      | Some _ => true
      | None => bool_decide (work d ∈ wq k)
      end
  end.

(** Modelled from the spec: submit-immediate of the task scheduler, the
    kernel's [queue_work].  "If one is already queued, submission is still
    safe: the scheduler coalesces": a pending item is left where it is and
    the call answers false. *)
Definition queue_work (w : work_struct) : M bool := fun k =>
  if work_pending w k then Out false k [Queue_work w]
  else Out true (with_wq (wq k ++ [w]) k) [Queue_work w].

(** Modelled from the spec: submit-delayed(duration) of the task
    scheduler, the kernel's [queue_delayed_work].  There is one timer
    handle for the one delayed task.  A submission that finds the task
    pending is coalesced as an immediate one is: the pending task stays as
    it is, timer included, and the call answers false.  Otherwise a zero
    delay goes to the queue at once and any other delay arms the timer
    from the current time. *)
Definition queue_delayed_work (d : delayed_work) (delay : Z) : M bool :=
  fun k =>
    if work_pending (work d) k then Out false k [Queue_delayed_work d delay]
    else if delay =? 0 then
      Out true (with_wq (wq k ++ [work d]) k) [Queue_delayed_work d delay]
    else
      Out true (with_timer (Some (jiffies k + delay)) k)
        [Queue_delayed_work d delay].

(** Modelled from the spec: the cancel half of
    cancel-if-pending-and-resubmit-immediate, the kernel's
    [cancel_delayed_work_sync]: a pending task is taken off the timer and
    off the queue and the call answers true, otherwise it answers false. *)
Definition cancel_delayed_work_sync (d : delayed_work) : M bool := fun k =>
  if work_pending (work d) k then
    Out true (with_timer None (with_wq (filter (λ w, w ≠ work d) (wq k)) k))
      [Cancel_delayed_work_sync d]
  else Out false k [Cancel_delayed_work_sync d].

(** Modelled from the spec: the recompute-now entry point of the policy
    engine, the kernel's [cpufreq_update_policy]: a synchronous call that
    invokes the bounds-adjustment callback on the proposed bounds of the
    core and keeps the adjusted bounds.  A core without a policy is passed
    over. *)
Definition cpufreq_update_policy (cpu : nat) : M unit := fun k =>
  match cpufreq_cpu_data k !! cpu with
  | None => Out tt k [Cpufreq_update_policy cpu]
  | Some p =>
      let n := do_cpu_boost CPUFREQ_ADJUST (state k) p in
      Out tt (with_policy cpu (nstate n) (npolicy n) k)
        [Cpufreq_update_policy cpu]
  end.

(** ** The driver *)

(** [set_wake_boost(buf, kp)] *)
Definition set_wake_boost (buf : string) : M Z :=
  let (n, val) := sscanf_u buf in
  if negb (n =? 1) then mret (- EINVAL)
  else
    store_wake_boost_time val;;
    queue_work boost_work;;
    mret 0.

(** [update_online_cpu_policy()]: trigger cpufreq notifier for online
    CPUs.  Between [get_online_cpus()] and [put_online_cpus()] the set of
    online CPUs does not change, so the loop runs over the set as it is on
    entry. *)
Definition update_online_cpu_policy : M unit := fun k =>
  for_each (cpu_online_mask k) cpufreq_update_policy k.

(** [wake_boost(work)] *)
Definition wake_boost : M unit :=
  store_state BOOST;;
  update_online_cpu_policy;;
  t ← load_wake_boost_time;
  queue_delayed_work unboost_work (msecs_to_jiffies t);;
  mret tt.

(** [wake_unboost(work)] *)
Definition wake_unboost : M unit :=
  store_state UNBOOST;;
  update_online_cpu_policy.

(** [fb_notifier_callback(nb, action, data)], with [*evdata->data] passed
    as [blank]. *)
Definition fb_notifier_callback (action blank : Z) : M Z :=
  if negb (action =? FB_EARLY_EVENT_BLANK) then mret NOTIFY_OK
  else
    (if blank =? FB_BLANK_UNBLANK then
       store_wake_boost_time FB_BOOST_MS;;
       queue_work boost_work;;
       mret tt
     else
       c ← cancel_delayed_work_sync unboost_work;
       if c : bool then queue_delayed_work unboost_work 0;; mret tt
       else mret tt);;
    mret NOTIFY_OK.

(** [cpu_wake_boost_init()]: the zeroed [wake_boost_info], an empty
    workqueue, no timer. *)
Definition cpu_wake_boost_init (now : Z) (online : list nat)
    (data : gmap nat cpufreq_policy) : machine :=
  Machine NO_BOOST 0 [] None now online data.

(** ** The environment *)

(** [INIT_WORK(&w->boost_work, wake_boost)] and
    [INIT_DELAYED_WORK(&w->unboost_work, wake_unboost)] *)
Definition work_fn (w : work_struct) : M unit :=
  match w with
  | boost_work => wake_boost
  | work unboost_work => wake_unboost
  end.

(** Modelled from the spec: the single serialized worker of the task
    scheduler.  It takes the oldest item off the queue, which ends its
    being pending, and runs its function to completion. *)
Definition process_one_work : M unit := fun k =>
  match wq k with
  | [] => Out tt k []
  | w :: l => work_fn w (with_wq l k)
  end.

Fixpoint worker (fuel : nat) (k : machine) : machine :=
  match fuel with
  | O => k
  | S fuel =>
      match wq k with
      | [] => k
      | _ :: _ => worker fuel (after (process_one_work k))
      end
  end.

(** The worker runs until the queue is empty.  A boost task can add one
    unboost task (a zero delay) and an unboost task adds nothing, so twice
    the length of the queue is fuel enough ([drain_empties] below). *)
Definition drain (k : machine) : machine :=
  worker (2 * length (wq k)) k.

(** Modelled from the spec: the timer of the delayed task.  When the time
    has come the task goes to the worker's queue. *)
Definition run_timers (k : machine) : machine :=
  match timer k with
  | Some expires =>
      if expires <=? jiffies k then
        with_timer None (with_wq (wq k ++ [work unboost_work]) k)
      else k
  | None => k
  end.

Definition tick (k : machine) : machine :=
  run_timers (with_jiffies (jiffies k + 1) k).

(** Modelled from the spec: a policy evaluation, or any other run of the
    policy notifier chain, that the driver did not ask for: the callback
    is invoked with [action] on the policy of [cpu]. *)
Definition policy_notifier (action : Z) (cpu : nat) (k : machine) : machine :=
  match cpufreq_cpu_data k !! cpu with
  | None => k
  | Some p =>
      let n := do_cpu_boost action (state k) p in
      with_policy cpu (nstate n) (npolicy n) k
  end.

(** What can happen to the driver, one thing at a time. *)
Inductive input :=
| Fb_event (action blank : Z)          (* the framebuffer notifier chain *)
| Param_set (buf : string)             (* a write to the module parameter *)
| Policy_event (action : Z) (cpu : nat)
| Work                                 (* the worker runs one item *)
| Tick.                                (* one jiffy passes *)

Definition step (i : input) (k : machine) : machine :=
  match i with
  | Fb_event action blank => after (fb_notifier_callback action blank k)
  | Param_set buf => after (set_wake_boost buf k)
  | Policy_event action cpu => policy_notifier action cpu k
  | Work => after (process_one_work k)
  | Tick => tick k
  end.

Fixpoint run (l : list input) (k : machine) : machine :=
  match l with
  | [] => k
  | i :: l => run l (step i k)
  end.

(** [n] jiffies pass with no input; the worker runs whatever the timer
    hands it. *)
Fixpoint idle (n : nat) (k : machine) : machine :=
  match n with
  | O => k
  | S n => idle n (drain (tick k))
  end.

End Driver.

Arguments work_pending : simpl never.

(** ** A kernel to run examples on

    The values of the 3.18 headers, HZ = 1000 so that a jiffy is a
    millisecond, and a reading of ["%u"] that skips white space, takes the
    decimal digits that follow and stops at the first other character. *)

Definition is_digit (c : ascii) : bool :=
  let n := Z.of_nat (nat_of_ascii c) in (48 <=? n) && (n <=? 57).

Definition is_space (c : ascii) : bool :=
  let n := Z.of_nat (nat_of_ascii c) in (n =? 32) || ((9 <=? n) && (n <=? 13)).

Fixpoint skip_spaces (s : string) : string :=
  match s with
  | String c s' => if is_space c then skip_spaces s' else s
  | EmptyString => s
  end.

Fixpoint scan_digits (s : string) (acc : option Z) : option Z :=
  match s with
  | String c s' =>
      if is_digit c then
        scan_digits s'
          (Some (10 * default 0 acc + (Z.of_nat (nat_of_ascii c) - 48)))
      else acc
  | EmptyString => acc
  end.

Definition scan_uint (s : string) : Z * Z :=
  match scan_digits (skip_spaces s) None with
  | Some v => (1, v mod 2 ^ 32)
  | None => (0, 0)
  end.

Definition hz1000 : Kernel := {|
  CPUFREQ_ADJUST := 0;
  NOTIFY_OK := 1;
  FB_EARLY_EVENT_BLANK := 16;
  FB_BLANK_UNBLANK := 0;
  EINVAL := 22;
  msecs_to_jiffies := λ m, m;
  sscanf_u := scan_uint
|}.

(** [CPUFREQ_NOTIFY] and [FB_BLANK_POWERDOWN] of the same headers. *)
Definition CPUFREQ_NOTIFY : Z := 2.
Definition FB_BLANK_POWERDOWN : Z := 4.

(** A little core between 300 MHz and 2 GHz whose governor was given the
    range up to 1.5 GHz, and a machine with two of them. *)
Definition little : cpufreq_policy :=
  {| cpuinfo := {| max_freq := 2000000; min_freq := 300000 |};
     min := 300000; max := 1500000 |}.

Definition two_cores : machine :=
  cpu_wake_boost_init 0 [0%nat; 1%nat] (<[1%nat := little]> {[0%nat := little]}).

(** What the callback does to the state when it is invoked for
    [CPUFREQ_ADJUST]. *)
Definition adjusted (st : boost_state) : boost_state :=
  match st with UNBOOST => NO_BOOST | _ => st end.

(** The policy the callback makes of [p] in state [BOOST]. *)
Definition boosted `{K : Kernel} (p : cpufreq_policy) : cpufreq_policy :=
  npolicy (do_cpu_boost CPUFREQ_ADJUST BOOST p).

(** The worker's fuel: a boost task may leave an unboost task behind. *)
Fixpoint weight (l : list work_struct) : nat :=
  match l with
  | [] => 0
  | boost_work :: l => 2 + weight l
  | work _ :: l => 1 + weight l
  end.

(** ** The rest of the driver *)

(** [snprintf(buf, size, "%u", v)]: the decimal digits of [v], of which
    [buf] takes the first [size - 1]; the answer is the number of digits,
    cut or not.  Ten digits are enough for an [unsigned int]. *)
Fixpoint decimal_digits (fuel : nat) (v : Z) (acc : string) : string :=
  match fuel with
  | O => acc
  | S fuel =>
      let acc := String (ascii_of_nat (Z.to_nat (48 + v mod 10))) acc in
      if v / 10 =? 0 then acc else decimal_digits fuel (v / 10) acc
  end.

Definition snprintf_u (size : Z) (v : Z) : string * Z :=
  let s := decimal_digits 10 v EmptyString in
  (substring 0 (Z.to_nat (size - 1)) s, Z.of_nat (String.length s)).

(** [get_wake_boost(buf, kp)]: what is in [buf] afterwards, and [cnt].
    [PAGE_SIZE] is the kernel's. *)
Definition get_wake_boost (PAGE_SIZE : Z) : M (string * Z) := fun k =>
  Out (snprintf_u PAGE_SIZE (wake_boost_time k)) k [].

(** What [late_initcall(cpu_wake_boost_init)] leaves behind: its return
    value, the allocations still held, [wake_info], and the notifier
    blocks that sit on a chain, the framebuffer one with its priority. *)
Inductive allocation := Wake_boost_info | Workqueue.

Inductive notifier_block := Cpu_notif | Fb_notif (priority : Z).

#[global] Instance allocation_eq_dec : EqDecision allocation.
Proof. solve_decision. Defined.

Record booted := Booted {
  init_ret : Z;
  held : list allocation;
  wake_info : option machine;
  chains : list notifier_block
}.

(** [cpu_wake_boost_init()] with its failure paths.  [kzalloc_ok] and
    [alloc_workqueue_ok] say whether the two allocations succeed;
    [cpufreq_ret] and [fb_ret] are the answers of
    [cpufreq_register_notifier] and [fb_register_client], zero when the
    block was put on the chain.  [ENOMEM] and [INT_MAX] are the kernel's. *)
Definition late_initcall (ENOMEM INT_MAX : Z)
    (kzalloc_ok alloc_workqueue_ok : bool) (cpufreq_ret fb_ret : Z)
    (now : Z) (online : list nat) (data : gmap nat cpufreq_policy) : booted :=
  if negb kzalloc_ok then Booted (- ENOMEM) [] None []
  else
    let held := [Wake_boost_info] in
    if negb alloc_workqueue_ok then
      (* kfree(w) *)
      Booted (- ENOMEM) (filter (λ a, a ≠ Wake_boost_info) held) None []
    else
      let held := held ++ [Workqueue] in
      let w := cpu_wake_boost_init now online data in
      let chains := if cpufreq_ret =? 0 then [Cpu_notif] else [] in
      let chains :=
        if fb_ret =? 0 then chains ++ [Fb_notif INT_MAX] else chains in
      Booted 0 held (Some w) chains.

(** ** Predicates for the properties below *)

(** A policy within the limits of its hardware, as the cpufreq core keeps
    it. *)
Definition in_limits (p : cpufreq_policy) : Prop :=
  min_freq (cpuinfo p) <= min p ∧ min p <= max p ∧
  max p <= max_freq (cpuinfo p).


(** No work item is submitted twice, and the unboost task is on its timer
    or on the queue, never both. *)
Definition queue_ok (k : machine) : Prop :=
  NoDup (wq k) ∧ (is_Some (timer k) → work unboost_work ∉ wq k).

(** A boost has its unboost pending. *)
Definition boost_covered `{K : Kernel} (k : machine) : Prop :=
  state k = BOOST → work_pending (work unboost_work) k = true.

Ltac unfold_M :=
  unfold mbind, M_bind, mret, M_ret, store_state, store_wake_boost_time,
    load_wake_boost_time in *; simpl in *.

(** * Theorems *)

(** ** The policy notifier *)

Lemma do_cpu_boost_other `{K : Kernel} action st p :
  action ≠ CPUFREQ_ADJUST → do_cpu_boost action st p = Notified NOTIFY_OK st p.
Proof.
  intros Hne. unfold do_cpu_boost.
  destruct (Z.eqb_spec action CPUFREQ_ADJUST); [contradiction | reflexivity].
Qed.

Lemma do_cpu_boost_adjust `{K : Kernel} st p :
  do_cpu_boost CPUFREQ_ADJUST st p =
  match st with
  | NO_BOOST => Notified NOTIFY_OK NO_BOOST p
  | UNBOOST =>
      Notified NOTIFY_OK NO_BOOST (set_min p (min_freq (cpuinfo p)))
  | BOOST =>
      Notified NOTIFY_OK BOOST
        {| cpuinfo := cpuinfo p; min := max_freq (cpuinfo p);
           max := Z.max (max p) (max_freq (cpuinfo p)) |}
  end.
Proof.
  unfold do_cpu_boost. rewrite Z.eqb_refl. destruct st; simpl; try reflexivity.
  destruct (Z.ltb_spec (max p) (max_freq (cpuinfo p))); unfold set_max, set_min;
    simpl; f_equal; f_equal; lia.
Qed.

(** C1, as stated, fails: invoked for [CPUFREQ_NOTIFY] while the state is
    [BOOST], the callback leaves the minimum of the policy where it was,
    below the hardware maximum. *)
Lemma C1_not_for_every_action :
  let n := do_cpu_boost (K := hz1000) CPUFREQ_NOTIFY BOOST little in
  nstate n = BOOST ∧ npolicy n = little ∧
  min (npolicy n) ≠ max_freq (cpuinfo little).
Proof. vm_compute. repeat split; discriminate. Qed.

(** C1, amended: invoked for [CPUFREQ_ADJUST] while the state is [BOOST],
    the callback sets the minimum of the policy to the hardware maximum of
    the core, raises a maximum that is below that minimum to it and leaves
    any other maximum alone, so that the range is not inverted; the state
    is still [BOOST], the answer is [NOTIFY_OK]. *)
Theorem C1_boosted_adjust `{K : Kernel} (p : cpufreq_policy) :
  let n := do_cpu_boost CPUFREQ_ADJUST BOOST p in
  nret n = NOTIFY_OK ∧
  nstate n = BOOST ∧
  cpuinfo (npolicy n) = cpuinfo p ∧
  min (npolicy n) = max_freq (cpuinfo p) ∧
  max (npolicy n) =
    (if max p <? max_freq (cpuinfo p) then max_freq (cpuinfo p) else max p) ∧
  min (npolicy n) <= max (npolicy n).
Proof.
  rewrite do_cpu_boost_adjust. simpl.
  destruct (Z.ltb_spec (max p) (max_freq (cpuinfo p))); repeat split; lia.
Qed.

(** C9: while the state is [NO_BOOST] every invocation, whatever the
    action, hands the policy back as it was; and for any state and any
    action a second invocation gives the policy the first one gave, both
    when the second one runs in the same state and when it runs in the
    state the first one left. *)
Theorem C9_idempotent `{K : Kernel} (action : Z) (st : boost_state)
    (p : cpufreq_policy) :
  npolicy (do_cpu_boost action NO_BOOST p) = p ∧
  nstate (do_cpu_boost action NO_BOOST p) = NO_BOOST ∧
  npolicy (do_cpu_boost action st (npolicy (do_cpu_boost action st p))) =
    npolicy (do_cpu_boost action st p) ∧
  npolicy (do_cpu_boost action (nstate (do_cpu_boost action st p))
             (npolicy (do_cpu_boost action st p))) =
    npolicy (do_cpu_boost action st p).
Proof.
  destruct (decide (action = CPUFREQ_ADJUST)) as [-> | Hne].
  - rewrite !do_cpu_boost_adjust. destruct st; simpl;
      rewrite ?do_cpu_boost_adjust; simpl; repeat split;
      unfold set_min; simpl; f_equal; lia.
  - rewrite !do_cpu_boost_other by assumption. repeat split.
Qed.

Lemma with_policy_same (cpu : nat) (p : cpufreq_policy) (k : machine) :
  cpufreq_cpu_data k !! cpu = Some p → with_policy cpu (state k) p k = k.
Proof.
  intros Hp. destruct k as [s b q t j o d]. unfold with_policy. simpl in *.
  f_equal. apply insert_id, Hp.
Qed.

(** C10: for every action other than [CPUFREQ_ADJUST] the callback answers
    [NOTIFY_OK] and leaves the policy and the state as they were; an
    [UNBOOST] in particular stays [UNBOOST].  A run of the notifier chain
    for such an action leaves the whole machine as it was. *)
Theorem C10_other_actions `{K : Kernel} (action : Z) (st : boost_state)
    (p : cpufreq_policy) (cpu : nat) (k : machine) :
  action ≠ CPUFREQ_ADJUST →
  do_cpu_boost action st p = Notified NOTIFY_OK st p ∧
  nstate (do_cpu_boost action UNBOOST p) = UNBOOST ∧
  policy_notifier action cpu k = k.
Proof.
  intros Hne. rewrite !do_cpu_boost_other by assumption.
  split; [reflexivity |]. split; [reflexivity |].
  unfold policy_notifier.
  destruct (cpufreq_cpu_data k !! cpu) as [q |] eqn:Hq; [| reflexivity].
  rewrite do_cpu_boost_other by assumption. simpl.
  apply with_policy_same, Hq.
Qed.

Lemma C10_other_actions_witness :
  CPUFREQ_NOTIFY ≠ @CPUFREQ_ADJUST hz1000 ∧
  do_cpu_boost (K := hz1000) CPUFREQ_NOTIFY UNBOOST little =
    Notified (@NOTIFY_OK hz1000) UNBOOST little ∧
  nstate (do_cpu_boost (K := hz1000) CPUFREQ_NOTIFY UNBOOST little) = UNBOOST ∧
  policy_notifier (K := hz1000) CPUFREQ_NOTIFY 0
    (with_state UNBOOST two_cores) = with_state UNBOOST two_cores.
Proof.
  split; [discriminate |].
  apply (C10_other_actions (K := hz1000) CPUFREQ_NOTIFY UNBOOST little 0
           (with_state UNBOOST two_cores)).
  discriminate.
Defined.

(** ** The forced re-evaluation *)

Lemma nstate_adjust `{K : Kernel} st p :
  nstate (do_cpu_boost CPUFREQ_ADJUST st p) = adjusted st.
Proof. rewrite do_cpu_boost_adjust. destruct st; reflexivity. Qed.

Lemma for_each_update_trace `{K : Kernel} (l : list nat) (k : machine) :
  trace (for_each l cpufreq_update_policy k) = map Cpufreq_update_policy l.
Proof.
  revert k. induction l as [| cpu l IH]; intros k; [reflexivity |].
  simpl. unfold_M. rewrite IH. unfold cpufreq_update_policy.
  destruct (cpufreq_cpu_data k !! cpu); reflexivity.
Qed.

(** The re-evaluation touches the state and the policies, nothing else. *)
Lemma for_each_update_frame `{K : Kernel} (l : list nat) (k : machine) :
  let k' := after (for_each l cpufreq_update_policy k) in
  wake_boost_time k' = wake_boost_time k ∧ wq k' = wq k ∧
  timer k' = timer k ∧ jiffies k' = jiffies k ∧
  cpu_online_mask k' = cpu_online_mask k.
Proof.
  revert k. induction l as [| cpu l IH]; intros k; simpl; [tauto |].
  unfold_M. specialize (IH (after (cpufreq_update_policy cpu k))).
  simpl in IH. destruct IH as (-> & -> & -> & -> & ->).
  unfold cpufreq_update_policy.
  destruct (cpufreq_cpu_data k !! cpu); simpl; tauto.
Qed.

Lemma cpufreq_update_policy_state `{K : Kernel} cpu k :
  state (after (cpufreq_update_policy cpu k)) =
  match cpufreq_cpu_data k !! cpu with
  | Some _ => adjusted (state k)
  | None => state k
  end.
Proof.
  unfold cpufreq_update_policy.
  destruct (cpufreq_cpu_data k !! cpu); simpl; [apply nstate_adjust | reflexivity].
Qed.

Lemma for_each_update_state_fixed `{K : Kernel} (l : list nat) (k : machine) :
  adjusted (state k) = state k →
  state (after (for_each l cpufreq_update_policy k)) = state k.
Proof.
  revert k. induction l as [| cpu l IH]; intros k Hfix; [reflexivity |].
  simpl. unfold_M.
  assert (Hst : state (after (cpufreq_update_policy cpu k)) = state k).
  { rewrite cpufreq_update_policy_state.
    destruct (cpufreq_cpu_data k !! cpu); congruence. }
  rewrite IH; congruence.
Qed.

(** From [UNBOOST] the first online core that has a policy takes the
    state to [NO_BOOST]; with no such core it stays [UNBOOST]. *)
Lemma for_each_update_state_unboost `{K : Kernel} (l : list nat) (k : machine) :
  state k = UNBOOST →
  state (after (for_each l cpufreq_update_policy k)) =
  if existsb (λ cpu, bool_decide (is_Some (cpufreq_cpu_data k !! cpu))) l
  then NO_BOOST else UNBOOST.
Proof.
  revert k. induction l as [| cpu l IH]; intros k Hst; [assumption |].
  simpl. unfold_M.
  pose proof (cpufreq_update_policy_state cpu k) as Hs.
  destruct (cpufreq_cpu_data k !! cpu) as [p |] eqn:Hp.
  - rewrite bool_decide_true by eauto. simpl.
    rewrite for_each_update_state_fixed; rewrite Hs, Hst; reflexivity.
  - rewrite bool_decide_false by (intros [? ?]; discriminate). simpl.
    rewrite IH by congruence.
    unfold cpufreq_update_policy. rewrite Hp. simpl. reflexivity.
Qed.

Lemma boosted_idem `{K : Kernel} p : boosted (boosted p) = boosted p.
Proof.
  unfold boosted. rewrite !do_cpu_boost_adjust. simpl. f_equal. lia.
Qed.

Lemma for_each_update_boost_data `{K : Kernel} (l : list nat) (k : machine)
    (cpu : nat) :
  state k = BOOST →
  cpufreq_cpu_data (after (for_each l cpufreq_update_policy k)) !! cpu =
  if bool_decide (cpu ∈ l) then boosted <$> cpufreq_cpu_data k !! cpu
  else cpufreq_cpu_data k !! cpu.
Proof.
  revert k. induction l as [| x l IH]; intros k Hst; [reflexivity |].
  simpl. unfold_M.
  assert (Hs : state (after (cpufreq_update_policy x k)) = BOOST).
  { rewrite cpufreq_update_policy_state, Hst.
    destruct (cpufreq_cpu_data k !! x); reflexivity. }
  rewrite (IH _ Hs).
  assert (Hd : cpufreq_cpu_data (after (cpufreq_update_policy x k)) !! cpu =
               if decide (x = cpu) then boosted <$> cpufreq_cpu_data k !! cpu
               else cpufreq_cpu_data k !! cpu).
  { unfold cpufreq_update_policy.
    destruct (cpufreq_cpu_data k !! x) as [p |] eqn:Hp; simpl.
    - rewrite lookup_insert. destruct (decide (x = cpu)) as [<- |];
        [rewrite Hp, Hst; reflexivity | reflexivity].
    - destruct (decide (x = cpu)) as [<- |]; [rewrite Hp |]; reflexivity. }
  rewrite Hd.
  destruct (decide (x = cpu)) as [<- | Hne].
  - rewrite (bool_decide_true (x ∈ x :: l)) by apply list_elem_of_here.
    destruct (bool_decide (x ∈ l)); [| reflexivity].
    destruct (cpufreq_cpu_data k !! x); simpl; [| reflexivity].
    rewrite boosted_idem. reflexivity.
  - destruct (decide (cpu ∈ l)) as [Hin | Hnin].
    + rewrite (bool_decide_true (cpu ∈ x :: l))
        by (apply list_elem_of_further; assumption).
      rewrite (bool_decide_true (cpu ∈ l)) by assumption. reflexivity.
    + rewrite (bool_decide_false (cpu ∈ x :: l))
        by (rewrite elem_of_cons; intros [? | ?]; congruence).
      rewrite (bool_decide_false (cpu ∈ l)) by assumption. reflexivity.
Qed.

(** ** The boost task *)

Lemma update_online_cpu_policy_trace `{K : Kernel} (k : machine) :
  trace (update_online_cpu_policy k) =
  map Cpufreq_update_policy (cpu_online_mask k).
Proof. apply for_each_update_trace. Qed.

(** What one run of the boost task does, in full. *)
Lemma wake_boost_effect `{K : Kernel} (k : machine) :
  let r := wake_boost k in
  let delay := msecs_to_jiffies (wake_boost_time k) in
  trace r =
    Store_state BOOST ::
    map Cpufreq_update_policy (cpu_online_mask k) ++
    [Queue_delayed_work unboost_work delay] ∧
  state (after r) = BOOST ∧
  (∀ cpu : nat,
     cpufreq_cpu_data (after r) !! cpu =
     if bool_decide (cpu ∈ cpu_online_mask k)
     then boosted <$> cpufreq_cpu_data k !! cpu
     else cpufreq_cpu_data k !! cpu) ∧
  timer (after r) =
    (if work_pending (work unboost_work) k then timer k
     else if delay =? 0 then None else Some (jiffies k + delay)) ∧
  wq (after r) =
    (if work_pending (work unboost_work) k then wq k
     else if delay =? 0 then wq k ++ [work unboost_work] else wq k) ∧
  wake_boost_time (after r) = wake_boost_time k ∧
  jiffies (after r) = jiffies k.
Proof.
  cbv zeta. unfold wake_boost, update_online_cpu_policy. unfold_M.
  set (k1 := with_state BOOST k).
  set (k2 := after (for_each (cpu_online_mask k) cpufreq_update_policy k1)).
  destruct (for_each_update_frame (cpu_online_mask k) k1)
    as (Ht & Hq & Htm & Hj & _). fold k2 in Ht, Hq, Htm, Hj. simpl in *.
  assert (Hst : state k2 = BOOST)
    by (unfold k2; rewrite for_each_update_state_fixed; reflexivity).
  assert (Hpend : work_pending (work unboost_work) k2 =
                  work_pending (work unboost_work) k)
    by (unfold work_pending; rewrite Htm, Hq; reflexivity).
  rewrite for_each_update_trace, Ht.
  split; [rewrite app_nil_r; unfold queue_delayed_work;
          repeat case_match; reflexivity |].
  unfold queue_delayed_work. rewrite Hpend.
  assert (Hdata : ∀ cpu : nat,
    cpufreq_cpu_data k2 !! cpu =
    if bool_decide (cpu ∈ cpu_online_mask k)
    then boosted <$> cpufreq_cpu_data k !! cpu
    else cpufreq_cpu_data k !! cpu)
    by (intros cpu; unfold k2; rewrite for_each_update_boost_data; reflexivity).
  destruct (work_pending (work unboost_work) k) eqn:Hp; simpl;
    [| destruct (msecs_to_jiffies (wake_boost_time k) =? 0); simpl];
    rewrite ?Hj, ?Hq, ?Htm; repeat split; auto.
  unfold work_pending in Hp. destruct (timer k); [discriminate | reflexivity].
Qed.

Lemma set_wake_boost_time `{K : Kernel} (buf : string) (k : machine) :
  wake_boost_time (after (set_wake_boost buf k)) =
  if (sscanf_u buf).1 =? 1 then (sscanf_u buf).2 else wake_boost_time k.
Proof.
  unfold set_wake_boost. destruct (sscanf_u buf) as [n v]. simpl.
  destruct (n =? 1); simpl; [| reflexivity]. unfold_M. unfold queue_work.
  case_match; reflexivity.
Qed.

Lemma fb_unblank_time `{K : Kernel} (k : machine) :
  wake_boost_time
    (after (fb_notifier_callback FB_EARLY_EVENT_BLANK FB_BLANK_UNBLANK k)) =
  FB_BOOST_MS.
Proof.
  unfold fb_notifier_callback. rewrite !Z.eqb_refl. unfold_M.
  unfold queue_work. case_match; reflexivity.
Qed.

Lemma wake_boost_last_call `{K : Kernel} (k : machine) :
  last (trace (wake_boost k)) =
  Some (Queue_delayed_work unboost_work (msecs_to_jiffies (wake_boost_time k))).
Proof.
  destruct (wake_boost_effect k) as (-> & _).
  rewrite app_comm_cons. apply last_snoc.
Qed.

(** C2: the boost task stores [BOOST], then calls [cpufreq_update_policy]
    for every online CPU in turn, then calls [queue_delayed_work] for the
    unboost task, and does nothing else.  The re-evaluation sees the new
    state: it leaves [BOOST] in place and every online CPU that has a
    policy with the boosted policy.  The delay is the value that
    [wake_boost_time] has when the task runs: a parameter write or an
    unblank event that comes between the submission of the task and its
    run decides it.  The timer is armed from the current time unless the
    unboost task is pending already or the delay is zero. *)
Theorem C2_wake_boost_steps `{K : Kernel} (k : machine) (buf : string) :
  let r := wake_boost k in
  let delay := msecs_to_jiffies (wake_boost_time k) in
  trace r =
    Store_state BOOST ::
    map Cpufreq_update_policy (cpu_online_mask k) ++
    [Queue_delayed_work unboost_work delay] ∧
  state (after r) = BOOST ∧
  (∀ cpu : nat,
     cpufreq_cpu_data (after r) !! cpu =
     if bool_decide (cpu ∈ cpu_online_mask k)
     then boosted <$> cpufreq_cpu_data k !! cpu
     else cpufreq_cpu_data k !! cpu) ∧
  timer (after r) =
    (if work_pending (work unboost_work) k then timer k
     else if delay =? 0 then None else Some (jiffies k + delay)) ∧
  last (trace (wake_boost (after (set_wake_boost buf k)))) =
    Some (Queue_delayed_work unboost_work
            (msecs_to_jiffies
               (if (sscanf_u buf).1 =? 1 then (sscanf_u buf).2
                else wake_boost_time k))) ∧
  last (trace (wake_boost
                 (after (fb_notifier_callback FB_EARLY_EVENT_BLANK
                           FB_BLANK_UNBLANK k)))) =
    Some (Queue_delayed_work unboost_work (msecs_to_jiffies 2000)).
Proof.
  cbv zeta.
  destruct (wake_boost_effect k) as (Htr & Hst & Hdata & Htm & _).
  split; [exact Htr |]. split; [exact Hst |]. split; [exact Hdata |].
  split; [exact Htm |]. split.
  - rewrite wake_boost_last_call, set_wake_boost_time. reflexivity.
  - rewrite wake_boost_last_call, fb_unblank_time. reflexivity.
Qed.

(** ** The unboost task *)

Lemma wake_unboost_trace `{K : Kernel} (k : machine) :
  trace (wake_unboost k) =
  Store_state UNBOOST :: map Cpufreq_update_policy (cpu_online_mask k).
Proof.
  unfold wake_unboost, update_online_cpu_policy. unfold_M.
  rewrite for_each_update_trace. reflexivity.
Qed.

Lemma wake_unboost_state `{K : Kernel} (k : machine) :
  state (after (wake_unboost k)) =
  if existsb (λ cpu, bool_decide (is_Some (cpufreq_cpu_data k !! cpu)))
       (cpu_online_mask k)
  then NO_BOOST else UNBOOST.
Proof.
  unfold wake_unboost, update_online_cpu_policy. unfold_M.
  rewrite for_each_update_state_unboost; reflexivity.
Qed.

Lemma wake_unboost_frame `{K : Kernel} (k : machine) :
  let k' := after (wake_unboost k) in
  wake_boost_time k' = wake_boost_time k ∧ wq k' = wq k ∧
  timer k' = timer k ∧ jiffies k' = jiffies k ∧
  cpu_online_mask k' = cpu_online_mask k.
Proof.
  unfold wake_unboost, update_online_cpu_policy. unfold_M.
  apply (for_each_update_frame (cpu_online_mask k) (with_state UNBOOST k)).
Qed.

(** C6, as stated, fails: an invocation of the callback that follows the
    unboost task need not be one for [CPUFREQ_ADJUST], and one for
    [CPUFREQ_NOTIFY] leaves the state [UNBOOST] and the minimum of the
    policy above the hardware minimum. *)
Lemma C6_next_invocation_other_action :
  let p := boosted (K := hz1000) little in
  let n := do_cpu_boost (K := hz1000) CPUFREQ_NOTIFY UNBOOST p in
  nstate n = UNBOOST ∧ nstate n ≠ NO_BOOST ∧
  min (npolicy n) ≠ min_freq (cpuinfo p).
Proof. vm_compute. repeat split; discriminate. Qed.

(** C6, amended: the unboost task stores [UNBOOST] and then calls
    [cpufreq_update_policy] for every online CPU in turn; it has no other
    store, none of [NO_BOOST] in particular.  The step from [UNBOOST] to
    [NO_BOOST] is the callback's, at its next invocation for
    [CPUFREQ_ADJUST], which sets the minimum of the policy to the hardware
    minimum of the core; an invocation changes the state in no other case.
    Framebuffer events, parameter writes and the passing of time leave the
    state alone. *)
Theorem C6_unboost_released `{K : Kernel} (k : machine) (p : cpufreq_policy) :
  trace (wake_unboost k) =
    Store_state UNBOOST :: map Cpufreq_update_policy (cpu_online_mask k) ∧
  ¬ (Store_state NO_BOOST ∈ trace (wake_unboost k)) ∧
  do_cpu_boost CPUFREQ_ADJUST UNBOOST p =
    Notified NOTIFY_OK NO_BOOST (set_min p (min_freq (cpuinfo p))) ∧
  (∀ action st q,
     nstate (do_cpu_boost action st q) =
     if bool_decide (action = CPUFREQ_ADJUST ∧ st = UNBOOST) then NO_BOOST
     else st) ∧
  (∀ action blank,
     state (after (fb_notifier_callback action blank k)) = state k) ∧
  (∀ buf, state (after (set_wake_boost buf k)) = state k) ∧
  state (tick k) = state k.
Proof.
  split; [apply wake_unboost_trace |].
  split.
  { rewrite wake_unboost_trace. rewrite elem_of_cons.
    intros [Heq | Hin]; [discriminate |].
    apply list_elem_of_fmap in Hin. destruct Hin as (? & ? & _). discriminate. }
  split; [rewrite do_cpu_boost_adjust; reflexivity |].
  split.
  { intros action st q. destruct (decide (action = CPUFREQ_ADJUST)) as [-> | Hne].
    - rewrite nstate_adjust. destruct st; simpl;
        [rewrite bool_decide_false by (intros [_ ?]; discriminate)
        | rewrite bool_decide_true by (split; reflexivity)
        | rewrite bool_decide_false by (intros [_ ?]; discriminate)];
        reflexivity.
    - rewrite do_cpu_boost_other by assumption.
      rewrite bool_decide_false by (intros [? _]; contradiction). reflexivity. }
  split.
  { intros action blank. unfold fb_notifier_callback.
    destruct (negb (action =? FB_EARLY_EVENT_BLANK)); [reflexivity |].
    destruct (blank =? FB_BLANK_UNBLANK); unfold_M;
      unfold queue_work, cancel_delayed_work_sync, queue_delayed_work;
      repeat (case_match; simpl); reflexivity. }
  split.
  { intros buf. unfold set_wake_boost. destruct (sscanf_u buf) as [n v].
    destruct (negb (n =? 1)); [reflexivity |]. unfold_M.
    unfold queue_work. case_match; reflexivity. }
  unfold tick, run_timers. simpl. repeat case_match; reflexivity.
Qed.

(** ** Submitting and cancelling *)

Lemma queue_work_pending `{K : Kernel} (k : machine) :
  work_pending boost_work (after (queue_work boost_work k)) = true.
Proof.
  unfold queue_work. destruct (work_pending boost_work k) eqn:Hp; simpl;
    [assumption |].
  unfold work_pending. simpl. apply bool_decide_eq_true.
  apply elem_of_app. right. apply list_elem_of_here.
Qed.

Lemma not_pending_after_cancel `{K : Kernel} (d : delayed_work) (k : machine) :
  work_pending (work d)
    (with_timer None (with_wq (filter (λ w, w ≠ work d) (wq k)) k)) = false.
Proof.
  unfold work_pending. simpl. apply bool_decide_eq_false.
  rewrite list_elem_of_filter. intros [Hne _]. apply Hne. reflexivity.
Qed.

(** Only the early phase of a blank transition is looked at: any other
    framebuffer notification is answered [NOTIFY_OK] with nothing done. *)
Lemma fb_notifier_callback_other `{K : Kernel} (action blank : Z)
    (k : machine) :
  action ≠ FB_EARLY_EVENT_BLANK →
  fb_notifier_callback action blank k = Out NOTIFY_OK k [].
Proof.
  intros Hne. unfold fb_notifier_callback.
  destruct (Z.eqb_spec action FB_EARLY_EVENT_BLANK); [contradiction |].
  reflexivity.
Qed.

(** C7: a display-active event, the early blank event with
    [FB_BLANK_UNBLANK], stores the constant 2000 in [wake_boost_time]
    whatever was there, then submits the boost task with [queue_work], and
    does nothing else: the boost task is pending afterwards, at the end of
    the queue unless it was pending already. *)
Theorem C7_display_active `{K : Kernel} (k : machine) :
  let r := fb_notifier_callback FB_EARLY_EVENT_BLANK FB_BLANK_UNBLANK k in
  val r = NOTIFY_OK ∧
  trace r = [Store_wake_boost_time 2000; Queue_work boost_work] ∧
  after r =
    with_wq (if work_pending boost_work k then wq k else wq k ++ [boost_work])
      (with_wake_boost_time 2000 k) ∧
  wake_boost_time (after r) = 2000 ∧
  work_pending boost_work (after r) = true.
Proof.
  cbv zeta. unfold fb_notifier_callback. rewrite !Z.eqb_refl. unfold_M.
  pose proof (queue_work_pending (with_wake_boost_time FB_BOOST_MS k)) as Hq.
  unfold queue_work in *.
  change (work_pending boost_work (with_wake_boost_time FB_BOOST_MS k))
    with (work_pending boost_work k) in *.
  destruct (work_pending boost_work k); simpl in *; repeat split; assumption.
Qed.

(** C8: on a display-inactive event, an early blank event with anything
    but [FB_BLANK_UNBLANK], the callback asks [cancel_delayed_work_sync]
    for the unboost task.  If the task was pending it is off the timer and
    off its place in the queue, and [queue_delayed_work] with delay 0 has
    put it at the end of the queue; if it was not, nothing but the asking
    was done and the machine is as it was. *)
Theorem C8_display_inactive `{K : Kernel} (blank : Z) (k : machine) :
  blank ≠ FB_BLANK_UNBLANK →
  let r := fb_notifier_callback FB_EARLY_EVENT_BLANK blank k in
  val r = NOTIFY_OK ∧
  if work_pending (work unboost_work) k then
    trace r = [Cancel_delayed_work_sync unboost_work;
               Queue_delayed_work unboost_work 0] ∧
    after r =
      with_timer None
        (with_wq (filter (λ w, w ≠ work unboost_work) (wq k) ++
                  [work unboost_work]) k)
  else
    trace r = [Cancel_delayed_work_sync unboost_work] ∧ after r = k.
Proof.
  intros Hne. cbv zeta. unfold fb_notifier_callback. rewrite Z.eqb_refl.
  destruct (Z.eqb_spec blank FB_BLANK_UNBLANK); [contradiction |].
  unfold_M. unfold cancel_delayed_work_sync.
  destruct (work_pending (work unboost_work) k) eqn:Hp; simpl;
    [| repeat split].
  unfold queue_delayed_work. rewrite not_pending_after_cancel. simpl.
  repeat split.
Qed.

Lemma C8_display_inactive_witness :
  FB_BLANK_POWERDOWN ≠ @FB_BLANK_UNBLANK hz1000 ∧
  let k := with_timer (Some 2000) (with_state BOOST two_cores) in
  let r := fb_notifier_callback (K := hz1000) (@FB_EARLY_EVENT_BLANK hz1000)
             FB_BLANK_POWERDOWN k in
  val r = @NOTIFY_OK hz1000 ∧
  if work_pending (work unboost_work) k then
    trace r = [Cancel_delayed_work_sync unboost_work;
               Queue_delayed_work unboost_work 0] ∧
    after r =
      with_timer None
        (with_wq (filter (λ w, w ≠ work unboost_work) (wq k) ++
                  [work unboost_work]) k)
  else
    trace r = [Cancel_delayed_work_sync unboost_work] ∧ after r = k.
Proof.
  split; [discriminate |].
  apply (C8_display_inactive (K := hz1000) FB_BLANK_POWERDOWN
           (with_timer (Some 2000) (with_state BOOST two_cores))).
  discriminate.
Defined.

(** ** The module parameter *)

Example scan_uint_examples :
  scan_uint "5000" = (1, 5000) ∧ scan_uint " 12abc" = (1, 12) ∧
  scan_uint "abc" = (0, 0) ∧ scan_uint "-5" = (0, 0) ∧ scan_uint "" = (0, 0).
Proof. vm_compute. repeat split. Qed.

Example set_wake_boost_examples :
  val (set_wake_boost (K := hz1000) "abc" two_cores) = -22 ∧
  after (set_wake_boost (K := hz1000) "abc" two_cores) = two_cores ∧
  val (set_wake_boost (K := hz1000) "5000" two_cores) = 0 ∧
  wake_boost_time (after (set_wake_boost (K := hz1000) "5000" two_cores)) = 5000 ∧
  wq (after (set_wake_boost (K := hz1000) "5000" two_cores)) = [boost_work].
Proof. vm_compute. repeat split. Qed.

(** C4: when [sscanf] does not report one conversion, [set_wake_boost]
    answers [-EINVAL] and has made no store and no call: the machine, its
    [wake_boost_time] and its state with it, is as it was.  When it does,
    the setter stores the value in [wake_boost_time], then submits the
    boost task with [queue_work], which is pending afterwards, and answers
    0. *)
Theorem C4_set_wake_boost `{K : Kernel} (buf : string) (k : machine) :
  let r := set_wake_boost buf k in
  let v := (sscanf_u buf).2 in
  if (sscanf_u buf).1 =? 1 then
    val r = 0 ∧
    trace r = [Store_wake_boost_time v; Queue_work boost_work] ∧
    after r =
      with_wq (if work_pending boost_work k then wq k else wq k ++ [boost_work])
        (with_wake_boost_time v k) ∧
    wake_boost_time (after r) = v ∧
    work_pending boost_work (after r) = true
  else
    val r = - EINVAL ∧ trace r = [] ∧ after r = k.
Proof.
  cbv zeta. unfold set_wake_boost. destruct (sscanf_u buf) as [n v]. simpl.
  destruct (n =? 1); simpl; [| repeat split]. unfold_M.
  pose proof (queue_work_pending (with_wake_boost_time v k)) as Hq.
  unfold queue_work in *.
  change (work_pending boost_work (with_wake_boost_time v k))
    with (work_pending boost_work k) in *.
  destruct (work_pending boost_work k); simpl in *; repeat split; assumption.
Qed.

(** ** The worker *)

Lemma worker_empty `{K : Kernel} (fuel : nat) (k : machine) :
  wq k = [] → worker fuel k = k.
Proof. intros Hq. destruct fuel; simpl; [| rewrite Hq]; reflexivity. Qed.

Lemma drain_empty `{K : Kernel} (k : machine) : wq k = [] → drain k = k.
Proof. intros Hq. apply worker_empty, Hq. Qed.

Lemma process_one_work_cons `{K : Kernel} (w : work_struct)
    (l : list work_struct) (k : machine) :
  wq k = w :: l → process_one_work k = work_fn w (with_wq l k).
Proof. intros Hq. unfold process_one_work. rewrite Hq. reflexivity. Qed.

Lemma worker_cons `{K : Kernel} (fuel : nat) (w : work_struct)
    (l : list work_struct) (k : machine) :
  wq k = w :: l →
  worker (S fuel) k = worker fuel (after (work_fn w (with_wq l k))).
Proof.
  intros Hq. cbn [worker]. rewrite (process_one_work_cons w l k Hq), Hq.
  reflexivity.
Qed.

Lemma weight_app (l1 l2 : list work_struct) :
  weight (l1 ++ l2) = (weight l1 + weight l2)%nat.
Proof.
  induction l1 as [| [| d] l1 IH]; simpl; [reflexivity | |]; rewrite IH; lia.
Qed.

Lemma weight_length (l : list work_struct) : (weight l ≤ 2 * length l)%nat.
Proof. induction l as [| [| d] l IH]; simpl; lia. Qed.

Lemma process_one_work_weight `{K : Kernel} (w : work_struct)
    (l : list work_struct) (k : machine) :
  wq k = w :: l →
  (weight (wq (after (process_one_work k))) < weight (wq k))%nat.
Proof.
  intros Hq. rewrite (process_one_work_cons w l k Hq), Hq.
  destruct w as [| []]; cbn [work_fn weight].
  - destruct (wake_boost_effect (with_wq l k)) as (_ & _ & _ & _ & -> & _).
    cbn [wq with_wq]. repeat case_match; rewrite ?weight_app; simpl; lia.
  - destruct (wake_unboost_frame (with_wq l k)) as (_ & -> & _).
    cbn [wq with_wq]. lia.
Qed.

Lemma worker_empties `{K : Kernel} (fuel : nat) (k : machine) :
  (weight (wq k) ≤ fuel)%nat → wq (worker fuel k) = [].
Proof.
  revert k. induction fuel as [| fuel IH]; intros k Hw; simpl.
  - destruct (wq k) as [| [| d] l]; simpl in Hw; [reflexivity | lia | lia].
  - destruct (wq k) as [| w l] eqn:Hq; [assumption |].
    apply IH. pose proof (process_one_work_weight w l k Hq) as Hlt.
    rewrite Hq in Hlt. lia.
Qed.

(** The worker always gets to the end of its queue. *)
Lemma drain_empties `{K : Kernel} (k : machine) : wq (drain k) = [].
Proof. apply worker_empties, weight_length. Qed.

(** Boost tasks queued before a pending unboost task run first and cannot
    re-arm it; the unboost task then ends the boost, all at one time. *)
Lemma worker_boosts_then_unboost `{K : Kernel} (bs : list work_struct)
    (fuel : nat) (k : machine) :
  Forall (λ w, w = boost_work) bs →
  wq k = bs ++ [work unboost_work] → timer k = None →
  (length bs < fuel)%nat →
  state (worker fuel k) ≠ BOOST ∧ timer (worker fuel k) = None ∧
  wq (worker fuel k) = [] ∧ jiffies (worker fuel k) = jiffies k ∧
  wake_boost_time (worker fuel k) = wake_boost_time k.
Proof.
  revert fuel k. induction bs as [| b bs IH]; intros fuel k Hbs Hq Ht Hf;
    (destruct fuel as [| fuel]; [simpl in Hf; lia |]);
    simpl in Hq; rewrite (worker_cons fuel _ _ k Hq).
  - cbn [work_fn]. set (k0 := with_wq [] k).
    destruct (wake_unboost_frame k0) as (Hb & Hw & Htm & Hj & _).
    rewrite worker_empty by (rewrite Hw; reflexivity).
    rewrite Hb, Hw, Htm, Hj, wake_unboost_state.
    repeat split; [case_match; discriminate | assumption].
  - apply Forall_cons in Hbs as [-> Hbs]. cbn [work_fn].
    set (k0 := with_wq (bs ++ [work unboost_work]) k).
    assert (Hp : work_pending (work unboost_work) k0 = true).
    { unfold work_pending. simpl. rewrite Ht. apply bool_decide_eq_true.
      apply elem_of_app. right. apply list_elem_of_here. }
    destruct (wake_boost_effect k0) as (_ & _ & _ & Htm & Hw & Hb & Hj).
    rewrite Hp in Htm, Hw.
    destruct (IH fuel (after (wake_boost k0)) Hbs Hw) as (? & ? & ? & Hj' & Hb');
      [rewrite Htm; assumption | simpl in Hf; lia |].
    rewrite Hj', Hb', Hj, Hb. repeat split; assumption.
Qed.

(** ** The timer *)

Lemma with_jiffies_same (k : machine) : with_jiffies (jiffies k) k = k.
Proof. destruct k; reflexivity. Qed.

Lemma idle_quiet `{K : Kernel} (n : nat) (k : machine) :
  timer k = None → wq k = [] →
  idle n k = with_jiffies (jiffies k + Z.of_nat n) k.
Proof.
  revert k. induction n as [| n IH]; intros k Ht Hq.
  - simpl. rewrite Z.add_0_r, with_jiffies_same. reflexivity.
  - cbn [idle]. unfold tick, run_timers. simpl. rewrite Ht.
    rewrite drain_empty by assumption.
    rewrite IH by assumption. simpl. unfold with_jiffies. simpl.
    f_equal. lia.
Qed.

(** A timer that is armed for [expires] is still armed at every earlier
    time, with the state as it was ... *)
Lemma idle_before_expiry `{K : Kernel} (n : nat) (k : machine) (expires : Z) :
  timer k = Some expires → wq k = [] →
  jiffies k + Z.of_nat n < expires →
  idle n k = with_jiffies (jiffies k + Z.of_nat n) k.
Proof.
  revert k. induction n as [| n IH]; intros k Ht Hq Hlt.
  - simpl. rewrite Z.add_0_r, with_jiffies_same. reflexivity.
  - cbn [idle]. unfold tick, run_timers. simpl. rewrite Ht.
    destruct (Z.leb_spec expires (jiffies k + 1)); [lia |].
    rewrite drain_empty by assumption.
    rewrite IH by (simpl; try assumption; lia).
    simpl. unfold with_jiffies. simpl. f_equal. lia.
Qed.

(** ... and at [expires] the unboost task runs: from then on the state is
    not [BOOST] and nothing is pending. *)
Lemma idle_from_expiry `{K : Kernel} (n : nat) (k : machine) (expires : Z) :
  timer k = Some expires → wq k = [] → jiffies k < expires →
  expires <= jiffies k + Z.of_nat n →
  state (idle n k) ≠ BOOST ∧ timer (idle n k) = None ∧ wq (idle n k) = [] ∧
  jiffies (idle n k) = jiffies k + Z.of_nat n ∧
  wake_boost_time (idle n k) = wake_boost_time k.
Proof.
  revert k. induction n as [| n IH]; intros k Ht Hq Hlt Hle; [simpl in Hle; lia |].
  cbn [idle]. unfold tick, run_timers. simpl. rewrite Ht.
  destruct (Z.leb_spec expires (jiffies k + 1)).
  - set (k1 := with_timer None _).
    destruct (worker_boosts_then_unboost [] (2 * length (wq k1)) k1)
      as (Hs & Htm & Hw & Hj & Hb);
      [constructor | unfold k1; simpl; rewrite Hq; reflexivity | reflexivity
      | unfold k1; simpl; rewrite Hq; simpl; lia |].
    fold (drain k1) in Hs, Htm, Hw, Hj, Hb.
    rewrite idle_quiet by assumption. simpl. rewrite Hj, Hb. unfold k1. simpl.
    repeat split; [assumption | assumption | assumption | lia].
  - rewrite drain_empty by assumption.
    destruct (IH (with_jiffies (jiffies k + 1) k)) as (? & ? & ? & Hj & Hb);
      [assumption | assumption | simpl; lia | simpl; lia |].
    simpl in Hj, Hb. repeat split; try assumption. lia.
Qed.

(** ** Runs *)

Lemma run_app `{K : Kernel} (l1 l2 : list input) (k : machine) :
  run (l1 ++ l2) k = run l2 (run l1 k).
Proof. revert k. induction l1 as [| i l1 IH]; intros k; simpl; auto. Qed.

Lemma filter_other_work (l : list work_struct) :
  Forall (λ w, w = boost_work) (filter (λ w, w ≠ work unboost_work) l).
Proof.
  apply Forall_forall. intros w Hin. apply list_elem_of_filter in Hin.
  destruct Hin as [Hne _]. destruct w as [| []]; [reflexivity | contradiction].
Qed.

Lemma wake_boost_unboost_pending `{K : Kernel} (k : machine) :
  work_pending (work unboost_work) (after (wake_boost k)) = true.
Proof.
  destruct (wake_boost_effect k) as (_ & _ & _ & Ht & Hw & _).
  unfold work_pending in *. rewrite Ht, Hw.
  destruct (timer k) as [e |]; [reflexivity |].
  destruct (bool_decide (work unboost_work ∈ wq k)) eqn:Hin.
  - rewrite Hin. reflexivity.
  - destruct (msecs_to_jiffies (wake_boost_time k) =? 0); [| reflexivity].
    apply bool_decide_eq_true, elem_of_app. right. apply list_elem_of_here.
Qed.

(** C5, as stated, fails: when the display-inactive signal comes before
    the worker has run the boost task that the display-active signal
    submitted, no unboost task is pending, the signal does nothing, and
    the boost that the worker then starts lasts its full 2000 ms. *)
Lemma C5_inactive_before_boost_runs :
  let k := run (K := hz1000)
             [Fb_event 16 0; Fb_event 16 FB_BLANK_POWERDOWN; Work] two_cores in
  state k = BOOST ∧ timer k = Some 2000 ∧ jiffies k = 0 ∧
  state (idle (K := hz1000) 1999 k) = BOOST ∧
  state (idle (K := hz1000) 2000 k) = NO_BOOST.
Proof. vm_compute. repeat split. Qed.

(** C5, amended: for every event sequence at whose end the unboost task is
    pending, as it is from the moment the boost task has run until the
    unboost task runs, a display-inactive signal takes the unboost task
    off its timer and puts it at the end of the worker's queue; the worker
    runs it with no time passing, and from then on the state is not
    [BOOST] and no unboost is pending. *)
Theorem C5_early_release `{K : Kernel} (l : list input) (k0 : machine)
    (blank : Z) :
  blank ≠ FB_BLANK_UNBLANK →
  work_pending (work unboost_work) (run l k0) = true →
  let k1 := run (l ++ [Fb_event FB_EARLY_EVENT_BLANK blank]) k0 in
  timer k1 = None ∧
  last (wq k1) = Some (work unboost_work) ∧
  jiffies k1 = jiffies (run l k0) ∧
  state (drain k1) ≠ BOOST ∧
  timer (drain k1) = None ∧
  wq (drain k1) = [] ∧
  jiffies (drain k1) = jiffies (run l k0) ∧
  ∀ k : machine, work_pending (work unboost_work) (after (wake_boost k)) = true.
Proof.
  intros Hne Hp. cbv zeta. rewrite run_app. set (k := run l k0) in *.
  cbn [run step]. unfold fb_notifier_callback. rewrite Z.eqb_refl.
  destruct (Z.eqb_spec blank FB_BLANK_UNBLANK); [contradiction |].
  unfold_M. unfold cancel_delayed_work_sync. rewrite Hp. simpl.
  unfold queue_delayed_work. rewrite not_pending_after_cancel. simpl.
  set (bs := filter (λ w, w ≠ work unboost_work) (wq k)).
  set (k1 := with_wq _ _).
  destruct (worker_boosts_then_unboost bs (2 * length (wq k1)) k1)
    as (Hs & Ht & Hw & Hj & _);
    [apply filter_other_work | reflexivity | reflexivity
    | unfold k1; simpl; rewrite length_app; simpl; lia |].
  fold (drain k1) in Hs, Ht, Hw, Hj.
  repeat split; try assumption.
  - unfold k1. simpl. apply last_snoc.
  - apply wake_boost_unboost_pending.
Qed.

Lemma C5_early_release_witness :
  let l := [Fb_event 16 0; Work; Tick; Tick; Tick] in
  FB_BLANK_POWERDOWN ≠ @FB_BLANK_UNBLANK hz1000 ∧
  work_pending (work unboost_work) (run (K := hz1000) l two_cores) = true ∧
  state (run (K := hz1000) l two_cores) = BOOST ∧
  state (drain (K := hz1000)
           (run (K := hz1000)
              (l ++ [Fb_event (@FB_EARLY_EVENT_BLANK hz1000) FB_BLANK_POWERDOWN])
              two_cores)) ≠ BOOST.
Proof.
  split; [discriminate |]. split; [reflexivity |]. split; [reflexivity |].
  apply (C5_early_release (K := hz1000)
           [Fb_event 16 0; Work; Tick; Tick; Tick] two_cores
           FB_BLANK_POWERDOWN);
    [discriminate | reflexivity].
Defined.

(** ** A parameter write during a boost *)

(** C3, as stated, fails.  The display is unblanked at time 0 and the
    boost task arms the unboost for 2000; at time 500 the parameter is set
    to 5000 and the boost task runs again.  The unboost is still due at
    2000, but it is the only one: the boost ends there, 1500 ms after the
    setter's boost task ran and not 5000, and at 5499 the state is
    [NO_BOOST] with nothing left that could expire at 5500. *)
Lemma C3_new_cycle_ends_with_the_old :
  let k := idle (K := hz1000) 500
             (run (K := hz1000) [Fb_event 16 0; Work] two_cores) in
  let k2 := run (K := hz1000) [Param_set "5000"; Work] k in
  state k = BOOST ∧ timer k = Some 2000 ∧ jiffies k = 500 ∧
  state k2 = BOOST ∧ wake_boost_time k2 = 5000 ∧ timer k2 = Some 2000 ∧
  state (idle (K := hz1000) 1499 k2) = BOOST ∧
  state (idle (K := hz1000) 1500 k2) = NO_BOOST ∧
  timer (idle (K := hz1000) 1500 k2) = None ∧
  wq (idle (K := hz1000) 1500 k2) = [] ∧
  jiffies (idle (K := hz1000) 4999 k2) = 5499 ∧
  state (idle (K := hz1000) 4999 k2) = NO_BOOST ∧
  timer (idle (K := hz1000) 4999 k2) = None ∧
  wq (idle (K := hz1000) 4999 k2) = [].
Proof. vm_compute. repeat split. Qed.

(** C3, amended: if the setter is called while the state is [BOOST] with
    an unboost scheduled for [expires], the setter leaves that timer
    alone, and so does the boost task it submits: the call of
    [queue_delayed_work] with the new duration finds the unboost task
    pending and schedules nothing.  The unboost still fires at [expires],
    neither sooner nor later, and the boost ends there.  The new duration
    is what a boost task that runs after that arms the timer with. *)
Theorem C3_setter_while_boosted `{K : Kernel} (buf : string) (k : machine)
    (expires : Z) :
  (sscanf_u buf).1 = 1 →
  state k = BOOST → timer k = Some expires → wq k = [] →
  jiffies k < expires →
  let v := (sscanf_u buf).2 in
  let k1 := after (set_wake_boost buf k) in
  let k2 := after (process_one_work k1) in
  (timer k1 = Some expires ∧ wake_boost_time k1 = v ∧ wq k1 = [boost_work]) ∧
  (trace (process_one_work k1) =
     Store_state BOOST :: map Cpufreq_update_policy (cpu_online_mask k) ++
     [Queue_delayed_work unboost_work (msecs_to_jiffies v)] ∧
   timer k2 = Some expires ∧ state k2 = BOOST ∧ wq k2 = [] ∧
   wake_boost_time k2 = v ∧ jiffies k2 = jiffies k) ∧
  ∀ n : nat,
    (jiffies k + Z.of_nat n < expires →
     state (idle n k2) = BOOST ∧ timer (idle n k2) = Some expires) ∧
    (expires <= jiffies k + Z.of_nat n →
     state (idle n k2) ≠ BOOST ∧ timer (idle n k2) = None ∧
     wq (idle n k2) = [] ∧
     timer (after (wake_boost (idle n k2))) =
       if msecs_to_jiffies v =? 0 then None
       else Some (jiffies k + Z.of_nat n + msecs_to_jiffies v)).
Proof.
  intros Hscan Hst Ht Hq Hlt. cbv zeta.
  destruct (sscanf_u buf) as [c v] eqn:Hsc. simpl in Hscan. subst c.
  cbn [snd].
  assert (Hk1 : after (set_wake_boost buf k) =
                with_wq [boost_work] (with_wake_boost_time v k)).
  { unfold set_wake_boost. rewrite Hsc. simpl. unfold_M. unfold queue_work.
    assert (Hnp : work_pending boost_work (with_wake_boost_time v k) = false).
    { unfold work_pending. simpl. rewrite Hq. apply bool_decide_eq_false.
      apply not_elem_of_nil. }
    rewrite Hnp. simpl. rewrite Hq. reflexivity. }
  rewrite Hk1. set (k1 := with_wq [boost_work] (with_wake_boost_time v k)).
  split; [unfold k1; simpl; repeat split; assumption |].
  rewrite (process_one_work_cons boost_work [] k1 eq_refl). cbn [work_fn].
  set (k0 := with_wq [] k1).
  destruct (wake_boost_effect k0) as (Htr & Hs & _ & Htm & Hw & Hb & Hj).
  assert (Hp : work_pending (work unboost_work) k0 = true)
    by (unfold work_pending; simpl; rewrite Ht; reflexivity).
  rewrite Hp in Htm, Hw. set (k2 := after (wake_boost k0)) in *.
  cbn [k0 k1 with_wq with_wake_boost_time wq timer jiffies wake_boost_time
       cpu_online_mask] in Htr, Htm, Hw, Hb, Hj.
  rewrite Ht in Htm.
  split; [repeat split; assumption |].
  intros n. split; intros Hn.
  - rewrite (idle_before_expiry n k2 expires) by (try assumption; lia).
    simpl. split; assumption.
  - destruct (idle_from_expiry n k2 expires) as (Hs' & Ht' & Hw' & Hj' & Hb');
      [assumption | assumption | lia | lia |].
    repeat split; try assumption.
    destruct (wake_boost_effect (idle n k2)) as (_ & _ & _ & -> & _).
    assert (Hnp' : work_pending (work unboost_work) (idle n k2) = false).
    { unfold work_pending. rewrite Ht', Hw'. apply bool_decide_eq_false.
      apply not_elem_of_nil. }
    rewrite Hnp', Hb', Hj', Hb, Hj. reflexivity.
Qed.

Lemma C3_setter_while_boosted_witness :
  let k := idle (K := hz1000) 500
             (run (K := hz1000) [Fb_event 16 0; Work] two_cores) in
  let k2 := after (process_one_work (K := hz1000)
                     (after (set_wake_boost (K := hz1000) "5000" k))) in
  timer k2 = Some 2000 ∧ state k2 = BOOST ∧ wake_boost_time k2 = 5000.
Proof.
  pose proof (C3_setter_while_boosted (K := hz1000) "5000"
    (idle (K := hz1000) 500
       (run (K := hz1000) [Fb_event 16 0; Work] two_cores)) 2000) as H.
  destruct H as (_ & (_ & Ht & Hs & _ & Hb & _) & _);
    [reflexivity | reflexivity | reflexivity | reflexivity | reflexivity |].
  repeat split; assumption.
Defined.

(** * Further properties of the driver *)

(** ** The callback on one policy *)

(** X1: whatever the action, the state and the policy, the callback
    answers [NOTIFY_OK], leaves [cpuinfo] alone, never lowers the maximum,
    sets the minimum to nothing but a hardware limit, and never starts a
    boost: the state it leaves is [BOOST] only if it found [BOOST], and is
    else the state it found or [NO_BOOST]. *)
Theorem X1_callback_never `{K : Kernel} (action : Z) (st : boost_state)
    (p : cpufreq_policy) :
  let n := do_cpu_boost action st p in
  nret n = NOTIFY_OK ∧
  cpuinfo (npolicy n) = cpuinfo p ∧
  max p <= max (npolicy n) ∧
  (min (npolicy n) = min p ∨ min (npolicy n) = min_freq (cpuinfo p) ∨
   min (npolicy n) = max_freq (cpuinfo p)) ∧
  (nstate n = BOOST ↔ st = BOOST) ∧
  (nstate n = st ∨ nstate n = NO_BOOST).
Proof.
  cbv zeta. destruct (decide (action = CPUFREQ_ADJUST)) as [-> | Hne].
  - rewrite do_cpu_boost_adjust. destruct st; simpl;
      repeat split; try (intros; discriminate); auto; lia.
  - rewrite do_cpu_boost_other by assumption. simpl.
    repeat split; auto; lia.
Qed.

(** X2: a policy that is within the limits of its hardware is so after
    the callback, for every action and state; a boost pins both of its
    bounds to the hardware maximum. *)
Theorem X2_callback_in_limits `{K : Kernel} (action : Z) (st : boost_state)
    (p : cpufreq_policy) :
  in_limits p →
  in_limits (npolicy (do_cpu_boost action st p)) ∧
  min (boosted p) = max_freq (cpuinfo p) ∧
  max (boosted p) = max_freq (cpuinfo p).
Proof.
  unfold in_limits, boosted. intros (H1 & H2 & H3).
  rewrite (do_cpu_boost_adjust BOOST). simpl.
  split; [| lia].
  destruct (decide (action = CPUFREQ_ADJUST)) as [-> | Hne].
  - rewrite do_cpu_boost_adjust. destruct st; simpl; lia.
  - rewrite do_cpu_boost_other by assumption. simpl. lia.
Qed.

Lemma X2_callback_in_limits_witness :
  in_limits little ∧
  in_limits (npolicy (do_cpu_boost (K := hz1000) 0 BOOST little)) ∧
  min (boosted (K := hz1000) little) = 2000000 ∧
  max (boosted (K := hz1000) little) = 2000000.
Proof.
  assert (H : in_limits little) by (unfold in_limits; simpl; lia).
  split; [exact H |].
  apply (X2_callback_in_limits (K := hz1000) 0 BOOST little H).
Defined.

(** X3: a release after a boost does not give the policy back.  The
    minimum comes out as the hardware minimum and the maximum stays where
    the boost raised it, so the policy is the one before the boost exactly
    when its minimum was the hardware minimum and its maximum was not
    below the hardware maximum. *)
Theorem X3_boost_then_release `{K : Kernel} (p : cpufreq_policy) :
  let q := npolicy (do_cpu_boost CPUFREQ_ADJUST UNBOOST (boosted p)) in
  q = {| cpuinfo := cpuinfo p; min := min_freq (cpuinfo p);
         max := Z.max (max p) (max_freq (cpuinfo p)) |} ∧
  (q = p ↔ min p = min_freq (cpuinfo p) ∧ max_freq (cpuinfo p) <= max p).
Proof.
  cbv zeta. unfold boosted. rewrite !do_cpu_boost_adjust. simpl.
  unfold set_min. simpl. split; [reflexivity |].
  destruct p as [ci mn mx]. simpl. split.
  - intros Heq. injection Heq as Hmn Hmx. lia.
  - intros [-> Hle]. f_equal. lia.
Qed.

(** ** The tasks on the machine *)

Lemma machine_eq (k k' : machine) :
  state k = state k' → wake_boost_time k = wake_boost_time k' →
  wq k = wq k' → timer k = timer k' → jiffies k = jiffies k' →
  cpu_online_mask k = cpu_online_mask k' →
  (∀ cpu : nat, cpufreq_cpu_data k !! cpu = cpufreq_cpu_data k' !! cpu) →
  k = k'.
Proof.
  destruct k, k'. simpl. intros -> -> -> -> -> -> Hd.
  f_equal. apply map_eq, Hd.
Qed.





Lemma wake_boost_online `{K : Kernel} (k : machine) :
  cpu_online_mask (after (wake_boost k)) = cpu_online_mask k.
Proof.
  unfold wake_boost, update_online_cpu_policy. unfold_M.
  destruct (for_each_update_frame (cpu_online_mask k) (with_state BOOST k))
    as (_ & _ & _ & _ & Ho). simpl in Ho.
  unfold queue_delayed_work. repeat case_match; simpl; exact Ho.
Qed.

(** X5: a boost task that runs during a boost changes nothing: the state
    is [BOOST] already, the boosted policies are boosted again to
    themselves, and the unboost that is pending is left with its timer.
    Two runs of the task leave what one run leaves. *)
Theorem X5_boost_task_twice `{K : Kernel} (k : machine) :
  after (wake_boost (after (wake_boost k))) = after (wake_boost k).
Proof.
  set (k1 := after (wake_boost k)).
  destruct (wake_boost_effect k) as (_ & Hs & Hd & _ & _ & Hb & _).
  fold k1 in Hs, Hd, Hb.
  destruct (wake_boost_effect k1) as (_ & Hs' & Hd' & Ht' & Hw' & Hb' & Hj').
  pose proof (wake_boost_unboost_pending k) as Hp. fold k1 in Hp.
  rewrite Hp in Ht', Hw'.
  apply machine_eq; try congruence.
  - apply wake_boost_online.
  - intros cpu. rewrite Hd'.
    replace (cpu_online_mask k1) with (cpu_online_mask k)
      by (symmetry; apply wake_boost_online).
    rewrite Hd. destruct (bool_decide (cpu ∈ cpu_online_mask k));
      [| reflexivity].
    destruct (cpufreq_cpu_data k !! cpu); simpl; [| reflexivity].
    rewrite boosted_idem. reflexivity.
Qed.

(** ** Display events *)

Lemma with_wq_same (k : machine) : with_wq (wq k) k = k.
Proof. destruct k; reflexivity. Qed.

Lemma fb_unblank_after `{K : Kernel} (k : machine) :
  after (fb_notifier_callback FB_EARLY_EVENT_BLANK FB_BLANK_UNBLANK k) =
  with_wq (if work_pending boost_work k then wq k else wq k ++ [boost_work])
    (with_wake_boost_time FB_BOOST_MS k).
Proof.
  unfold fb_notifier_callback. rewrite !Z.eqb_refl. unfold_M.
  unfold queue_work.
  change (work_pending boost_work (with_wake_boost_time FB_BOOST_MS k))
    with (work_pending boost_work k).
  destruct (work_pending boost_work k); reflexivity.
Qed.

Lemma fb_blank_after `{K : Kernel} (blank : Z) (k : machine) :
  blank ≠ FB_BLANK_UNBLANK →
  after (fb_notifier_callback FB_EARLY_EVENT_BLANK blank k) =
  if work_pending (work unboost_work) k then
    with_timer None
      (with_wq (filter (λ w, w ≠ work unboost_work) (wq k) ++
                [work unboost_work]) k)
  else k.
Proof.
  intros Hne. unfold fb_notifier_callback. rewrite Z.eqb_refl.
  destruct (Z.eqb_spec blank FB_BLANK_UNBLANK); [contradiction |].
  unfold_M. unfold cancel_delayed_work_sync.
  destruct (work_pending (work unboost_work) k) eqn:Hp; simpl; [| reflexivity].
  unfold queue_delayed_work. rewrite not_pending_after_cancel. reflexivity.
Qed.

Lemma filter_twice (l : list work_struct) (w : work_struct) :
  filter (λ x, x ≠ w) (filter (λ x, x ≠ w) l ++ [w]) = filter (λ x, x ≠ w) l.
Proof.
  rewrite filter_app, list_filter_filter.
  rewrite (filter_cons_False _ w []) by (intros Hne; apply Hne; reflexivity).
  rewrite filter_nil, app_nil_r.
  apply list_filter_iff. intros x. tauto.
Qed.

(** X6: display events do not pile up.  A second display-active event
    before anything else happens leaves the machine as the first one left
    it, with one boost task submitted; and so does a second
    display-inactive event, with at most one unboost task at the end of
    the queue. *)
Theorem X6_display_events_once `{K : Kernel} (blank : Z) (k : machine) :
  blank ≠ FB_BLANK_UNBLANK →
  let active k :=
    after (fb_notifier_callback FB_EARLY_EVENT_BLANK FB_BLANK_UNBLANK k) in
  let inactive k :=
    after (fb_notifier_callback FB_EARLY_EVENT_BLANK blank k) in
  active (active k) = active k ∧ inactive (inactive k) = inactive k.
Proof.
  intros Hne. cbv zeta. split.
  - rewrite (fb_unblank_after (after _)).
    set (k1 := after (fb_notifier_callback _ _ k)).
    assert (Hp : work_pending boost_work k1 = true).
    { unfold k1. rewrite fb_unblank_after. unfold work_pending. simpl.
      destruct (bool_decide (boost_work ∈ wq k)) eqn:Hin; [exact Hin |].
      apply bool_decide_eq_true, elem_of_app. right. apply list_elem_of_here. }
    rewrite Hp.
    assert (Ht : wake_boost_time k1 = FB_BOOST_MS)
      by (unfold k1; rewrite fb_unblank_after; reflexivity).
    apply machine_eq; simpl; auto.
  - rewrite (fb_blank_after blank (after _)) by assumption.
    rewrite (fb_blank_after blank k) by assumption.
    destruct (work_pending (work unboost_work) k) eqn:Hp; [| rewrite Hp; reflexivity].
    set (k1 := with_timer None _).
    assert (Hp1 : work_pending (work unboost_work) k1 = true).
    { unfold work_pending, k1. simpl. apply bool_decide_eq_true, elem_of_app.
      right. apply list_elem_of_here. }
    rewrite Hp1. unfold k1. simpl. rewrite filter_twice. reflexivity.
Qed.

Lemma X6_display_events_once_witness :
  FB_BLANK_POWERDOWN ≠ @FB_BLANK_UNBLANK hz1000 ∧
  let k := with_timer (Some 2000) (with_state BOOST two_cores) in
  let active k :=
    after (fb_notifier_callback (K := hz1000) (@FB_EARLY_EVENT_BLANK hz1000)
             (@FB_BLANK_UNBLANK hz1000) k) in
  let inactive k :=
    after (fb_notifier_callback (K := hz1000) (@FB_EARLY_EVENT_BLANK hz1000)
             FB_BLANK_POWERDOWN k) in
  active (active k) = active k ∧ inactive (inactive k) = inactive k.
Proof.
  split; [discriminate |].
  apply (X6_display_events_once (K := hz1000) FB_BLANK_POWERDOWN
           (with_timer (Some 2000) (with_state BOOST two_cores))).
  discriminate.
Defined.

(** X7: the framebuffer callback always answers [NOTIFY_OK] and never
    touches the boost state, the policies, the set of online CPUs or the
    time; [wake_boost_time] is as before or 2000; and an action other than
    [FB_EARLY_EVENT_BLANK] with the same [blank] leaves all of the machine
    as it was. *)
Theorem X7_fb_callback_frame `{K : Kernel} (action blank : Z) (k : machine) :
  let r := fb_notifier_callback action blank k in
  val r = NOTIFY_OK ∧
  state (after r) = state k ∧
  cpufreq_cpu_data (after r) = cpufreq_cpu_data k ∧
  cpu_online_mask (after r) = cpu_online_mask k ∧
  jiffies (after r) = jiffies k ∧
  (wake_boost_time (after r) = wake_boost_time k ∨
   wake_boost_time (after r) = 2000) ∧
  (if action =? FB_EARLY_EVENT_BLANK then True
   else after r = k ∧ trace r = []).
Proof.
  cbv zeta. unfold fb_notifier_callback.
  destruct (action =? FB_EARLY_EVENT_BLANK); simpl; [| repeat split; auto].
  destruct (blank =? FB_BLANK_UNBLANK); unfold_M;
    unfold queue_work, cancel_delayed_work_sync, queue_delayed_work;
    repeat (case_match; simpl); repeat split; auto.
Qed.

(** ** What holds along every run *)

Lemma queue_ok_frame (k k' : machine) :
  wq k' = wq k → timer k' = timer k → queue_ok k → queue_ok k'.
Proof. unfold queue_ok. intros -> ->. tauto. Qed.

Lemma not_pending_unboost `{K : Kernel} (k : machine) :
  work_pending (work unboost_work) k = false →
  timer k = None ∧ work unboost_work ∉ wq k.
Proof.
  unfold work_pending. destruct (timer k); [discriminate |].
  intros Hp. apply bool_decide_eq_false in Hp. split; [reflexivity | exact Hp].
Qed.

Lemma queue_ok_snoc_unboost (k : machine) :
  NoDup (wq k) → work unboost_work ∉ wq k →
  queue_ok (with_timer None (with_wq (wq k ++ [work unboost_work]) k)).
Proof.
  intros Hnd Hnin. split; simpl.
  - apply NoDup_app. split; [exact Hnd |]. split.
    + intros x Hx Hx'. apply list_elem_of_singleton in Hx'. subst x. tauto.
    + apply NoDup_singleton.
  - intros [? Hs]. discriminate.
Qed.

Lemma queue_work_ok `{K : Kernel} (k : machine) :
  queue_ok k → queue_ok (after (queue_work boost_work k)).
Proof.
  intros [Hnd Ht]. unfold queue_work.
  destruct (work_pending boost_work k) eqn:Hp; simpl; [split; assumption |].
  unfold work_pending in Hp. apply bool_decide_eq_false in Hp.
  split; simpl.
  - apply NoDup_app. split; [exact Hnd |]. split.
    + intros x Hx Hx'. apply list_elem_of_singleton in Hx'. subst x. tauto.
    + apply NoDup_singleton.
  - intros Hs Hin. apply elem_of_app in Hin as [Hin | Hin].
    + exact (Ht Hs Hin).
    + apply list_elem_of_singleton in Hin. discriminate.
Qed.

Lemma queue_delayed_work_ok `{K : Kernel} (delay : Z) (k : machine) :
  queue_ok k → queue_ok (after (queue_delayed_work unboost_work delay k)).
Proof.
  intros [Hnd Ht]. unfold queue_delayed_work.
  destruct (work_pending (work unboost_work) k) eqn:Hp; simpl;
    [split; assumption |].
  apply not_pending_unboost in Hp as [Htm Hnin].
  destruct (delay =? 0); simpl.
  - apply (queue_ok_frame
             (with_timer None (with_wq (wq k ++ [work unboost_work]) k)));
      [reflexivity | simpl; congruence |].
    apply queue_ok_snoc_unboost; assumption.
  - split; simpl; [exact Hnd | intros _; exact Hnin].
Qed.

Lemma cancel_delayed_work_sync_ok `{K : Kernel} (k : machine) :
  queue_ok k → queue_ok (after (cancel_delayed_work_sync unboost_work k)).
Proof.
  intros [Hnd Ht]. unfold cancel_delayed_work_sync.
  destruct (work_pending (work unboost_work) k); simpl; [| split; assumption].
  split; simpl; [apply NoDup_filter, Hnd | intros [? Hs]; discriminate].
Qed.

Lemma wake_boost_queue_ok `{K : Kernel} (k : machine) :
  queue_ok k → queue_ok (after (wake_boost k)).
Proof.
  intros Hok. destruct (wake_boost_effect k) as (_ & _ & _ & Ht & Hw & _).
  pose proof (queue_delayed_work_ok (msecs_to_jiffies (wake_boost_time k)) k Hok)
    as Hq.
  apply (queue_ok_frame _ _) with (3 := Hq); unfold queue_delayed_work.
  - rewrite Hw. repeat case_match; reflexivity.
  - rewrite Ht. destruct (work_pending (work unboost_work) k) eqn:Hp;
      [reflexivity |].
    apply not_pending_unboost in Hp as [Htm _].
    repeat case_match; simpl; congruence.
Qed.

Lemma step_queue_ok `{K : Kernel} (i : input) (k : machine) :
  queue_ok k → queue_ok (step i k).
Proof.
  intros Hok. destruct i as [action blank | buf | action cpu | |]; simpl.
  - unfold fb_notifier_callback.
    destruct (negb (action =? FB_EARLY_EVENT_BLANK)); [exact Hok |].
    destruct (blank =? FB_BLANK_UNBLANK); unfold_M.
    + apply (queue_work_ok (with_wake_boost_time FB_BOOST_MS k)), Hok.
    + pose proof (cancel_delayed_work_sync_ok k Hok) as Hc.
      destruct (val (cancel_delayed_work_sync unboost_work k)); simpl;
        [| exact Hc].
      apply (queue_delayed_work_ok 0), Hc.
  - unfold set_wake_boost. destruct (sscanf_u buf) as [n v].
    destruct (negb (n =? 1)); [exact Hok |]. unfold_M.
    apply (queue_work_ok (with_wake_boost_time v k)), Hok.
  - unfold policy_notifier. destruct (cpufreq_cpu_data k !! cpu); exact Hok.
  - unfold process_one_work. destruct (wq k) as [| w l] eqn:Hq; [exact Hok |].
    destruct Hok as [Hnd Ht]. rewrite Hq in Hnd, Ht.
    apply NoDup_cons in Hnd as [_ Hnd].
    assert (Hok0 : queue_ok (with_wq l k)).
    { split; simpl; [exact Hnd |]. intros Hs Hin. apply (Ht Hs).
      apply list_elem_of_further, Hin. }
    destruct w as [| []]; cbn [work_fn].
    + apply wake_boost_queue_ok, Hok0.
    + destruct (wake_unboost_frame (with_wq l k)) as (_ & Hw & Htm & _).
      apply (queue_ok_frame (with_wq l k)); assumption.
  - unfold tick, run_timers. simpl. destruct Hok as [Hnd Ht].
    destruct (timer k) as [e |] eqn:Htm; [| split; simpl; [| rewrite Htm]; assumption].
    destruct (e <=? jiffies k + 1).
    + apply (queue_ok_snoc_unboost (with_jiffies (jiffies k + 1) k));
        [exact Hnd | apply Ht; eauto].
    + split; simpl; [| rewrite Htm]; assumption.
Qed.

Lemma run_queue_ok `{K : Kernel} (l : list input) (k : machine) :
  queue_ok k → queue_ok (run l k).
Proof.
  revert k. induction l as [| i l IH]; intros k Hok; [exact Hok |].
  simpl. apply IH, step_queue_ok, Hok.
Qed.

Lemma NoDup_work_length (l : list work_struct) :
  NoDup l → (length l ≤ 2)%nat.
Proof.
  intros Hnd. destruct l as [| a [| b [| c l]]]; simpl; try lia.
  exfalso. apply NoDup_cons in Hnd as [Ha Hnd].
  apply NoDup_cons in Hnd as [Hb _].
  apply not_elem_of_cons in Ha as [? Ha]. apply not_elem_of_cons in Ha as [? _].
  apply not_elem_of_cons in Hb as [? _].
  destruct a as [| []], b as [| []], c as [| []]; congruence.
Qed.

(** X8: along every run from the initial state, whatever the events,
    writes, timer ticks and worker steps, no work item is on the queue
    twice, so the queue never holds more than the two of them, and the
    unboost task is never on the queue while its timer runs. *)
Theorem X8_queue_discipline `{K : Kernel} (l : list input) (now : Z)
    (online : list nat) (data : gmap nat cpufreq_policy) :
  let k := run l (cpu_wake_boost_init now online data) in
  NoDup (wq k) ∧ (length (wq k) ≤ 2)%nat ∧
  (is_Some (timer k) → work unboost_work ∉ wq k).
Proof.
  cbv zeta.
  destruct (run_queue_ok l (cpu_wake_boost_init now online data)) as [Hnd Ht].
  { split; simpl; [apply NoDup_nil_2 | intros [? Hs]; discriminate]. }
  split; [exact Hnd |]. split; [apply NoDup_work_length, Hnd | exact Ht].
Qed.

Lemma pending_unboost_mono `{K : Kernel} (k k' : machine) :
  (is_Some (timer k) → is_Some (timer k')) →
  (work unboost_work ∈ wq k → work unboost_work ∈ wq k') →
  work_pending (work unboost_work) k = true →
  work_pending (work unboost_work) k' = true.
Proof.
  unfold work_pending. intros Ht Hw Hp.
  destruct (timer k) as [e |].
  - destruct (Ht (ltac:(eauto))) as [e' ->]. reflexivity.
  - destruct (timer k'); [reflexivity |].
    apply bool_decide_eq_true in Hp. apply bool_decide_eq_true, Hw, Hp.
Qed.

Lemma boost_covered_frame `{K : Kernel} (k k' : machine) :
  state k' = state k →
  (is_Some (timer k) → is_Some (timer k')) →
  (work unboost_work ∈ wq k → work unboost_work ∈ wq k') →
  boost_covered k → boost_covered k'.
Proof.
  unfold boost_covered. intros Hs Ht Hw Hc Hb. rewrite Hs in Hb.
  apply (pending_unboost_mono k k' Ht Hw), Hc, Hb.
Qed.

Lemma queue_boost_work_covered `{K : Kernel} (k : machine) :
  boost_covered k → boost_covered (after (queue_work boost_work k)).
Proof.
  apply boost_covered_frame; unfold queue_work;
    destruct (work_pending boost_work k); simpl; auto.
  intros Hin. apply elem_of_app. left. exact Hin.
Qed.

Lemma step_boost_covered `{K : Kernel} (i : input) (k : machine) :
  boost_covered k → boost_covered (step i k).
Proof.
  intros Hc. destruct i as [action blank | buf | action cpu | |]; simpl.
  - destruct (decide (action = FB_EARLY_EVENT_BLANK)) as [-> | Hne];
      [| rewrite fb_notifier_callback_other by assumption; exact Hc].
    destruct (decide (blank = FB_BLANK_UNBLANK)) as [-> | Hnb].
    + unfold fb_notifier_callback. rewrite !Z.eqb_refl. unfold_M.
      apply (queue_boost_work_covered (with_wake_boost_time FB_BOOST_MS k)), Hc.
    + rewrite fb_blank_after by assumption.
      destruct (work_pending (work unboost_work) k) eqn:Hp; [| exact Hc].
      intros _. unfold work_pending. simpl. apply bool_decide_eq_true.
      apply elem_of_app. right. apply list_elem_of_here.
  - unfold set_wake_boost. destruct (sscanf_u buf) as [n v].
    destruct (negb (n =? 1)); [exact Hc |]. unfold_M.
    apply (queue_boost_work_covered (with_wake_boost_time v k)), Hc.
  - unfold policy_notifier.
    destruct (cpufreq_cpu_data k !! cpu) as [p |]; [| exact Hc].
    intros Hb. simpl in Hb.
    assert (Hst : state k = BOOST).
    { destruct (decide (action = CPUFREQ_ADJUST)) as [-> | Hne].
      - rewrite nstate_adjust in Hb. destruct (state k); simpl in Hb; congruence.
      - rewrite do_cpu_boost_other in Hb by assumption. exact Hb. }
    exact (Hc Hst).
  - unfold process_one_work. destruct (wq k) as [| w l] eqn:Hq; [exact Hc |].
    destruct w as [| []]; cbn [work_fn]; intros Hb.
    + apply wake_boost_unboost_pending.
    + rewrite wake_unboost_state in Hb. case_match; discriminate.
  - unfold tick, run_timers. simpl.
    destruct (timer k) as [e |] eqn:Ht.
    + destruct (e <=? jiffies k + 1); intros Hb; unfold work_pending; simpl.
      * apply bool_decide_eq_true, elem_of_app. right. apply list_elem_of_here.
      * rewrite Ht. reflexivity.
    + intros Hb. specialize (Hc Hb). unfold work_pending in *. simpl.
      rewrite Ht in *. exact Hc.
Qed.

(** X9: along every run from the initial state a boost is never left
    without its release: whenever the state is [BOOST], the unboost task
    is pending, on its timer or on the worker's queue. *)
Theorem X9_boost_has_unboost `{K : Kernel} (l : list input) (now : Z)
    (online : list nat) (data : gmap nat cpufreq_policy) :
  let k := run l (cpu_wake_boost_init now online data) in
  state k = BOOST → work_pending (work unboost_work) k = true.
Proof.
  cbv zeta. change (boost_covered (run l (cpu_wake_boost_init now online data))).
  assert (H0 : boost_covered (cpu_wake_boost_init now online data))
    by (intros Hb; discriminate).
  revert H0. generalize (cpu_wake_boost_init now online data).
  induction l as [| i l IH]; intros k Hc; [exact Hc |].
  simpl. apply IH, step_boost_covered, Hc.
Qed.

Lemma X9_boost_has_unboost_witness :
  let k := run (K := hz1000) [Fb_event 16 0; Work; Tick]
             (cpu_wake_boost_init 0 [0%nat] {[0%nat := little]}) in
  state k = BOOST ∧ work_pending (work unboost_work) k = true.
Proof.
  split; [reflexivity |].
  apply (X9_boost_has_unboost (K := hz1000) [Fb_event 16 0; Work; Tick] 0
           [0%nat] {[0%nat := little]}).
  reflexivity.
Defined.

(** ** How long a boost lasts *)

Lemma only_boost_work (l : list work_struct) :
  work unboost_work ∉ l → Forall (λ w, w = boost_work) l.
Proof.
  intros Hnin. apply Forall_forall. intros w Hin.
  destruct w as [| []]; [reflexivity | contradiction].
Qed.

(** Boost tasks that run while the unboost timer is armed leave it armed
    for the same time. *)
Lemma worker_boosts_pending `{K : Kernel} (bs : list work_struct)
    (fuel : nat) (k : machine) (expires : Z) :
  Forall (λ w, w = boost_work) bs →
  wq k = bs → timer k = Some expires → (length bs ≤ fuel)%nat →
  wq (worker fuel k) = [] ∧ timer (worker fuel k) = Some expires ∧
  jiffies (worker fuel k) = jiffies k ∧
  wake_boost_time (worker fuel k) = wake_boost_time k.
Proof.
  revert fuel k. induction bs as [| b bs IH]; intros fuel k Hbs Hq Ht Hf.
  - rewrite worker_empty by assumption. auto.
  - destruct fuel as [| fuel]; [simpl in Hf; lia |].
    apply Forall_cons in Hbs as [-> Hbs].
    rewrite (worker_cons fuel _ _ k Hq). cbn [work_fn].
    set (k0 := with_wq bs k).
    assert (Hp : work_pending (work unboost_work) k0 = true)
      by (unfold work_pending; simpl; rewrite Ht; reflexivity).
    destruct (wake_boost_effect k0) as (_ & _ & _ & Htm & Hw & Hb & Hj).
    rewrite Hp in Htm, Hw.
    destruct (IH fuel (after (wake_boost k0)) Hbs Hw) as (? & ? & Hj' & Hb');
      [rewrite Htm; exact Ht | simpl in Hf; lia |].
    rewrite Hj', Hb', Hj, Hb. auto.
Qed.

(** X10: once the unboost timer is armed for [expires], and with no
    further input, it stays armed until then whatever boost tasks are
    still queued, and from [expires] on the state is not [BOOST] and
    nothing is pending: a queued boost task cannot stretch the boost. *)
Theorem X10_boost_over_at_expiry `{K : Kernel} (k : machine) (expires : Z)
    (n : nat) :
  timer k = Some expires → work unboost_work ∉ wq k →
  (jiffies k + Z.of_nat n < expires → timer (idle n k) = Some expires) ∧
  ((0 < n)%nat → expires <= jiffies k + Z.of_nat n →
   state (idle n k) ≠ BOOST ∧ timer (idle n k) = None ∧ wq (idle n k) = [] ∧
   jiffies (idle n k) = jiffies k + Z.of_nat n).
Proof.
  intros Ht Hnin. pose proof (only_boost_work (wq k) Hnin) as Hbs.
  destruct n as [| n]; [split; [intros _; exact Ht | lia] |].
  cbn [idle]. unfold tick, run_timers. simpl. rewrite Ht.
  destruct (Z.leb_spec expires (jiffies k + 1)) as [Hdue | Hnot].
  - split; [lia |]. intros _ _.
    set (k1 := with_timer None _).
    destruct (worker_boosts_then_unboost (wq k) (2 * length (wq k1)) k1)
      as (Hs & Htm & Hw & Hj & _);
      [exact Hbs | reflexivity | reflexivity
      | unfold k1; simpl; rewrite length_app; simpl; lia |].
    fold (drain k1) in Hs, Htm, Hw, Hj.
    rewrite idle_quiet by assumption. simpl. rewrite Hj. unfold k1. simpl.
    repeat split; try assumption. lia.
  - set (k1 := with_jiffies (jiffies k + 1) k).
    destruct (worker_boosts_pending (wq k) (2 * length (wq k1)) k1 expires)
      as (Hw & Htm & Hj & _);
      [exact Hbs | reflexivity | exact Ht | unfold k1; simpl; lia |].
    fold (drain k1) in Hw, Htm, Hj. simpl in Hj.
    split.
    + intros Hlt.
      rewrite (idle_before_expiry n (drain k1) expires) by (try assumption; lia).
      exact Htm.
    + intros _ Hle.
      destruct (idle_from_expiry n (drain k1) expires) as (? & ? & ? & Hj' & _);
        [assumption | assumption | lia | lia |].
      repeat split; try assumption. lia.
Qed.

Lemma X10_boost_over_at_expiry_witness :
  let k := run (K := hz1000) [Fb_event 16 0; Work; Param_set "9"] two_cores in
  timer k = Some 2000 ∧ wq k = [boost_work] ∧
  timer (idle (K := hz1000) 1999 k) = Some 2000 ∧
  state (idle (K := hz1000) 2000 k) ≠ BOOST.
Proof.
  split; [reflexivity |]. split; [reflexivity |].
  pose (k := run (K := hz1000) [Fb_event 16 0; Work; Param_set "9"] two_cores).
  assert (Hnin : work unboost_work ∉ wq k).
  { intros Hin. apply list_elem_of_singleton in Hin. discriminate. }
  split.
  - apply (X10_boost_over_at_expiry (K := hz1000) k 2000 1999 eq_refl Hnin).
    reflexivity.
  - apply (X10_boost_over_at_expiry (K := hz1000) k 2000 2000 eq_refl Hnin);
      [apply Nat.ltb_lt; reflexivity | discriminate].
Defined.

Lemma set_wake_boost_quiet `{K : Kernel} (buf : string) (k : machine) :
  (sscanf_u buf).1 = 1 → wq k = [] →
  after (set_wake_boost buf k) =
  with_wq [boost_work] (with_wake_boost_time (sscanf_u buf).2 k).
Proof.
  intros Hscan Hq. unfold set_wake_boost.
  destruct (sscanf_u buf) as [c v]. simpl in *. subst c. simpl. unfold_M.
  unfold queue_work, work_pending. simpl. rewrite Hq.
  rewrite bool_decide_false by apply not_elem_of_nil. reflexivity.
Qed.

(** X11: the wake boost from rest.  On a machine with nothing pending a
    display-active event and one step of the worker give the state
    [BOOST] with the unboost armed [msecs_to_jiffies(2000)] from now; with
    no further input the state is [BOOST] at exactly the times before
    that, and afterwards nothing is pending. *)
Theorem X11_wake_cycle `{K : Kernel} (k : machine) (n : nat) :
  wq k = [] → timer k = None → 0 < msecs_to_jiffies FB_BOOST_MS →
  let k2 := run [Fb_event FB_EARLY_EVENT_BLANK FB_BLANK_UNBLANK; Work] k in
  state k2 = BOOST ∧ wake_boost_time k2 = 2000 ∧ wq k2 = [] ∧
  timer k2 = Some (jiffies k + msecs_to_jiffies FB_BOOST_MS) ∧
  (state (idle n k2) = BOOST ↔ Z.of_nat n < msecs_to_jiffies FB_BOOST_MS) ∧
  (msecs_to_jiffies FB_BOOST_MS <= Z.of_nat n →
   timer (idle n k2) = None ∧ wq (idle n k2) = []).
Proof.
  intros Hq Ht Hd. cbv zeta. cbn [run step].
  rewrite fb_unblank_after.
  assert (Hnp : work_pending boost_work k = false).
  { unfold work_pending. rewrite Hq. apply bool_decide_eq_false.
    apply not_elem_of_nil. }
  rewrite Hnp, Hq. simpl app.
  set (k1 := with_wq [boost_work] (with_wake_boost_time FB_BOOST_MS k)).
  rewrite (process_one_work_cons boost_work [] k1 eq_refl). cbn [work_fn].
  set (k0 := with_wq [] k1).
  destruct (wake_boost_effect k0) as (_ & Hs & _ & Htm & Hw & Hb & Hj).
  assert (Hp : work_pending (work unboost_work) k0 = false)
    by (unfold work_pending; simpl; rewrite Ht; reflexivity).
  rewrite Hp in Htm, Hw. set (k2 := after (wake_boost k0)) in *.
  cbn [k0 k1 with_wq with_wake_boost_time wq timer jiffies wake_boost_time]
    in Htm, Hw, Hb, Hj.
  destruct (Z.eqb_spec (msecs_to_jiffies FB_BOOST_MS) 0) as [H0 | _]; [lia |].
  split; [exact Hs |]. split; [exact Hb |]. split; [exact Hw |].
  split; [exact Htm |].
  destruct (Z.lt_ge_cases (Z.of_nat n) (msecs_to_jiffies FB_BOOST_MS))
    as [Hlt | Hge].
  - rewrite (idle_before_expiry n k2 _ Htm Hw) by lia. simpl.
    split; [tauto | lia].
  - destruct (idle_from_expiry n k2 _ Htm Hw) as (Hs' & ? & ? & _);
      [lia | lia |].
    split; [split; [contradiction | lia] | auto].
Qed.

Lemma X11_wake_cycle_witness :
  let k2 := run (K := hz1000)
              [Fb_event (@FB_EARLY_EVENT_BLANK hz1000) (@FB_BLANK_UNBLANK hz1000);
               Work] two_cores in
  state k2 = BOOST ∧ timer k2 = Some 2000 ∧
  (state (idle (K := hz1000) 1999 k2) = BOOST ↔ 1999 < 2000).
Proof.
  destruct (X11_wake_cycle (K := hz1000) two_cores 1999)
    as (Hs & _ & _ & Ht & Hi & _);
    [reflexivity | reflexivity | reflexivity |].
  split; [exact Hs |]. split; [exact Ht | exact Hi].
Defined.

(** X12: a duration that comes to zero jiffies.  When the parameter is
    written with such a value on a machine with nothing pending, the boost
    task submits the unboost task without a timer and the worker runs it
    next: when the worker comes to rest the boost is over, at the time of
    the write. *)
Theorem X12_zero_duration `{K : Kernel} (buf : string) (k : machine) :
  (sscanf_u buf).1 = 1 → msecs_to_jiffies (sscanf_u buf).2 = 0 →
  wq k = [] → timer k = None →
  let k1 := after (set_wake_boost buf k) in
  wq (after (process_one_work k1)) = [work unboost_work] ∧
  timer (after (process_one_work k1)) = None ∧
  state (after (process_one_work k1)) = BOOST ∧
  state (drain k1) ≠ BOOST ∧ wq (drain k1) = [] ∧ timer (drain k1) = None ∧
  jiffies (drain k1) = jiffies k.
Proof.
  intros Hscan Hz Hq Ht. cbv zeta.
  rewrite set_wake_boost_quiet by assumption.
  set (k1 := with_wq [boost_work] _).
  assert (Hd : drain k1 = worker 1 (after (process_one_work k1))).
  { unfold drain. change (2 * length (wq k1))%nat with 2%nat.
    cbn [worker]. reflexivity. }
  rewrite Hd. rewrite (process_one_work_cons boost_work [] k1 eq_refl).
  cbn [work_fn]. set (k0 := with_wq [] k1).
  destruct (wake_boost_effect k0) as (_ & Hs & _ & Htm & Hw & _ & Hj).
  assert (Hp : work_pending (work unboost_work) k0 = false)
    by (unfold work_pending; simpl; rewrite Ht; reflexivity).
  rewrite Hp in Htm, Hw.
  cbn [k0 k1 with_wq with_wake_boost_time wq timer jiffies wake_boost_time]
    in Htm, Hw, Hj.
  rewrite Hz in Htm, Hw. simpl in Htm, Hw.
  destruct (worker_boosts_then_unboost [] 1 (after (wake_boost k0)))
    as (Hs' & Ht' & Hw' & Hj' & _);
    [constructor | exact Hw | exact Htm | simpl; lia |].
  rewrite Hj' , Hj. auto 10.
Qed.

Lemma X12_zero_duration_witness :
  let k1 := after (set_wake_boost (K := hz1000) "0" two_cores) in
  state (after (process_one_work (K := hz1000) k1)) = BOOST ∧
  state (drain (K := hz1000) k1) ≠ BOOST ∧ jiffies (drain (K := hz1000) k1) = 0.
Proof.
  destruct (X12_zero_duration (K := hz1000) "0" two_cores)
    as (_ & _ & Hs & Hn & _ & _ & Hj);
    [reflexivity | reflexivity | reflexivity | reflexivity |].
  split; [exact Hs |]. split; [exact Hn | exact Hj].
Defined.

Lemma process_one_work_frame `{K : Kernel} (k : machine) :
  jiffies (after (process_one_work k)) = jiffies k ∧
  wake_boost_time (after (process_one_work k)) = wake_boost_time k ∧
  cpu_online_mask (after (process_one_work k)) = cpu_online_mask k.
Proof.
  unfold process_one_work. destruct (wq k) as [| w l]; [auto |].
  destruct w as [| []]; cbn [work_fn].
  - destruct (wake_boost_effect (with_wq l k)) as (_ & _ & _ & _ & _ & Hb & Hj).
    rewrite Hb, Hj, wake_boost_online. auto.
  - destruct (wake_unboost_frame (with_wq l k)) as (Hb & _ & _ & Hj & Ho).
    rewrite Hb, Hj, Ho. auto.
Qed.

(** X13: the worker always comes to rest.  A boost task submits at most
    the unboost task and the unboost task submits nothing, so whatever is
    queued the worker reaches an empty queue; no time passes meanwhile and
    the tasks leave [wake_boost_time] and the set of online CPUs alone. *)
Theorem X13_worker_rests `{K : Kernel} (k : machine) :
  wq (drain k) = [] ∧ jiffies (drain k) = jiffies k ∧
  wake_boost_time (drain k) = wake_boost_time k ∧
  cpu_online_mask (drain k) = cpu_online_mask k.
Proof.
  split; [apply worker_empties, weight_length |].
  unfold drain. generalize (2 * length (wq k))%nat. intros fuel. revert k.
  induction fuel as [| fuel IH]; intros k; cbn [worker]; [auto |].
  destruct (wq k); [auto |].
  destruct (IH (after (process_one_work k))) as (-> & -> & ->).
  apply process_one_work_frame.
Qed.

(** ** Reading the parameter back *)

Lemma digit_char (d : Z) :
  0 <= d < 10 →
  let c := ascii_of_nat (Z.to_nat (48 + d)) in
  is_digit c = true ∧ is_space c = false ∧
  Z.of_nat (nat_of_ascii c) - 48 = d.
Proof.
  intros Hd. cbv zeta. unfold is_digit, is_space.
  rewrite nat_ascii_embedding by lia. rewrite Z2Nat.id by lia.
  repeat split; lia.
Qed.

Lemma decimal_digits_S (fuel : nat) (v : Z) (acc : string) :
  decimal_digits (S fuel) v acc =
  if v / 10 =? 0
  then String (ascii_of_nat (Z.to_nat (48 + v mod 10))) acc
  else decimal_digits fuel (v / 10)
         (String (ascii_of_nat (Z.to_nat (48 + v mod 10))) acc).
Proof. reflexivity. Qed.

Lemma scan_digit (d : Z) (a : option Z) (acc : string) :
  0 <= d < 10 →
  scan_digits (String (ascii_of_nat (Z.to_nat (48 + d))) acc) a =
  scan_digits acc (Some (10 * default 0 a + d)).
Proof.
  intros Hd. destruct (digit_char d Hd) as (Hdig & _ & Hval).
  cbn [scan_digits]. rewrite Hdig, Hval. reflexivity.
Qed.

Lemma scan_decimal (fuel : nat) (v : Z) (acc : string) :
  0 <= v < 10 ^ Z.of_nat (S fuel) →
  scan_digits (decimal_digits (S fuel) v acc) None = scan_digits acc (Some v).
Proof.
  revert v acc. induction fuel as [| fuel IH]; intros v acc Hv;
    rewrite decimal_digits_S;
    pose proof (Z.mod_pos_bound v 10 ltac:(lia)) as Hm;
    pose proof (Z.div_mod v 10 ltac:(lia)) as Hdm.
  - assert (Hsmall : v / 10 = 0) by (apply Z.div_small; simpl in Hv; lia).
    rewrite Hsmall. simpl Z.eqb. cbv iota. rewrite scan_digit by assumption.
    simpl default. f_equal. f_equal. lia.
  - destruct (Z.eqb_spec (v / 10) 0) as [Hz | Hnz].
    + rewrite scan_digit by assumption. simpl default. f_equal. f_equal. lia.
    + rewrite IH.
      * rewrite scan_digit by assumption. simpl default. f_equal. f_equal. lia.
      * split; [apply Z.div_pos; lia |].
        apply Z.div_lt_upper_bound; [lia |].
        rewrite <- Z.pow_succ_r by lia. rewrite <- Nat2Z.inj_succ. lia.
Qed.

Lemma decimal_head (fuel : nat) (v : Z) (acc : string) :
  0 <= v →
  ∃ d s, 0 <= d < 10 ∧
    decimal_digits (S fuel) v acc =
    String (ascii_of_nat (Z.to_nat (48 + d))) s.
Proof.
  revert v acc. induction fuel as [| fuel IH]; intros v acc Hv;
    rewrite decimal_digits_S.
  - exists (v mod 10), acc. split; [apply Z.mod_pos_bound; lia |].
    destruct (v / 10 =? 0); reflexivity.
  - destruct (v / 10 =? 0).
    + exists (v mod 10), acc. split; [apply Z.mod_pos_bound; lia | reflexivity].
    + apply IH. apply Z.div_pos; lia.
Qed.

Lemma decimal_length (fuel : nat) (v : Z) (acc : string) :
  (String.length (decimal_digits fuel v acc) ≤ fuel + String.length acc)%nat.
Proof.
  revert v acc. induction fuel as [| fuel IH]; intros v acc; [reflexivity |].
  rewrite decimal_digits_S. destruct (v / 10 =? 0).
  - simpl. lia.
  - etransitivity; [apply IH |]. simpl. lia.
Qed.

Lemma substring_all (s : string) (n : nat) :
  (String.length s ≤ n)%nat → substring 0 n s = s.
Proof.
  revert n. induction s as [| c s IH]; intros n Hn; destruct n; simpl in *;
    try reflexivity; try lia.
  f_equal. apply IH. lia.
Qed.

(** X14: reading the parameter.  [get_wake_boost] changes nothing; for a
    value of [wake_boost_time] that is an [unsigned int] and a page of
    more than ten bytes the text is not cut short, its length is the
    answer and is between 1 and 10, and it is the decimal numeral of the
    value: scanned as ["%u"] it gives the value back, so that writing the
    text to the parameter stores the value that was read. *)
Theorem X14_get_wake_boost (PAGE_SIZE : Z) (k : machine) :
  0 <= wake_boost_time k < 2 ^ 32 → 10 < PAGE_SIZE →
  let r := get_wake_boost PAGE_SIZE k in
  after r = k ∧ trace r = [] ∧
  (val r).2 = Z.of_nat (String.length (val r).1) ∧
  1 <= (val r).2 <= 10 ∧
  scan_uint (val r).1 = (1, wake_boost_time k) ∧
  wake_boost_time (after (set_wake_boost (K := hz1000) (val r).1 k)) =
    wake_boost_time k.
Proof.
  intros Hv Hp. cbv zeta. unfold get_wake_boost, snprintf_u.
  cbn [val after trace fst snd].
  set (s := decimal_digits 10 (wake_boost_time k) EmptyString).
  pose proof (decimal_length 10 (wake_boost_time k) EmptyString) as Hlen.
  fold s in Hlen. simpl in Hlen.
  destruct (decimal_head 9 (wake_boost_time k) EmptyString) as (d & t & Hd & Hs);
    [lia |]. fold s in Hs.
  assert (Hscan : scan_uint s = (1, wake_boost_time k)).
  { unfold scan_uint.
    assert (Hsk : skip_spaces s = s).
    { rewrite Hs. simpl. destruct (digit_char d Hd) as (_ & -> & _). reflexivity. }
    rewrite Hsk. unfold s. rewrite (scan_decimal 9)
      by (change (10 ^ Z.of_nat 10) with 10000000000; lia).
    simpl. rewrite Z.mod_small by lia. reflexivity. }
  rewrite substring_all by lia.
  split; [reflexivity |]. split; [reflexivity |]. split; [reflexivity |].
  split; [rewrite Hs in *; cbn [String.length] in *; lia |].
  split; [exact Hscan |].
  rewrite set_wake_boost_time.
  change (@sscanf_u hz1000 s) with (scan_uint s). rewrite Hscan. reflexivity.
Qed.

Lemma X14_get_wake_boost_witness :
  let k := with_wake_boost_time 2000 two_cores in
  0 <= wake_boost_time k < 2 ^ 32 ∧ 10 < 4096 ∧
  val (get_wake_boost 4096 k) = ("2000"%string, 4) ∧
  scan_uint (val (get_wake_boost 4096 k)).1 = (1, 2000).
Proof.
  assert (Hv : 0 <= wake_boost_time (with_wake_boost_time 2000 two_cores)
               < 2 ^ 32) by (simpl; lia).
  split; [exact Hv |]. split; [reflexivity |]. split; [reflexivity |].
  destruct (X14_get_wake_boost 4096
              (with_wake_boost_time 2000 two_cores) Hv eq_refl)
    as (_ & _ & _ & _ & Hs & _).
  exact Hs.
Defined.

(** ** Initialisation *)

(** X15: [cpu_wake_boost_init] answers 0 exactly when both allocations
    succeed and [-ENOMEM] otherwise.  When it fails it holds no memory,
    [wake_info] is still null and no notifier is registered; the
    [wake_boost_info] that was allocated before the workqueue failed has
    been freed.  When it succeeds the driver starts in [NO_BOOST] with
    nothing pending, and it answers 0 whatever the two registrations
    answered: a notifier block is on its chain only if its registration
    answered 0, the framebuffer one with priority [INT_MAX]. *)
Theorem X15_init_paths (ENOMEM INT_MAX : Z) (kzalloc_ok alloc_workqueue_ok : bool)
    (cpufreq_ret fb_ret now : Z) (online : list nat)
    (data : gmap nat cpufreq_policy) :
  let b := late_initcall ENOMEM INT_MAX kzalloc_ok alloc_workqueue_ok
             cpufreq_ret fb_ret now online data in
  if kzalloc_ok && alloc_workqueue_ok then
    init_ret b = 0 ∧ held b = [Wake_boost_info; Workqueue] ∧
    wake_info b = Some (Machine NO_BOOST 0 [] None now online data) ∧
    (Cpu_notif ∈ chains b ↔ cpufreq_ret = 0) ∧
    (Fb_notif INT_MAX ∈ chains b ↔ fb_ret = 0) ∧
    (length (chains b) ≤ 2)%nat
  else
    init_ret b = - ENOMEM ∧ held b = [] ∧ wake_info b = None ∧ chains b = [].
Proof.
  cbv zeta. unfold late_initcall.
  destruct kzalloc_ok, alloc_workqueue_ok; simpl; try (repeat split; reflexivity).
  destruct (Z.eqb_spec cpufreq_ret 0), (Z.eqb_spec fb_ret 0); simpl;
    repeat split; try reflexivity; try lia; intros H;
    repeat (apply elem_of_cons in H as [H | H]; try discriminate);
    try (apply elem_of_nil in H; contradiction);
    try assumption; try contradiction;
    try apply list_elem_of_here;
    try (apply list_elem_of_further, list_elem_of_here).
Qed.
